(** * simplenote.py: a shallow embedding of the Simplenote client

    The development follows [simplenote/simplenote.py].  Python values are
    embedded as a small universe [pyval]; every method of the [Simplenote]
    class becomes a computation in a state-and-exception monad over the
    object's fields and the log of the requests handed to [requests.Session].
    The HTTP session, the built-in [str], [strptime] and [mktime] are the
    runtime the module runs on: they are the fields of the class [Runtime].

    The embedding is the module as run by a Python 3 interpreter
    ([sys.version_info >= (3, 0)]). *)

From Stdlib Require Import ZArith List String Ascii Bool Lia.
From Stdlib Require Import Floats.SpecFloat.
From Stdlib Require Import Numbers.DecimalString.
Import ListNotations.
Local Open Scope string_scope.
Local Open Scope list_scope.
Local Open Scope Z_scope.
#[local] Set Warnings "-register-all".

(** ** Python values and exceptions *)

(** The exceptions the module can meet.  [IOError] stands for the built-in
    class and all its subclasses, among them every exception of [requests]
    ([requests.ConnectionError], [requests.Timeout], ...), which derive from
    [requests.RequestException], a subclass of [IOError]. *)
Inductive exn : Type :=
| IOError (what : string)
| TypeError
| ValueError
| OverflowError
| KeyError (key : string)
| NameError (name : string)
| SimplenoteLoginFailed (msg : string).

(** Integers are [int], [spec_float] is the IEEE binary64 [float]; a [dict]
    keeps its insertion order, as in Python 3.7 and [json]. *)
Inductive pyval : Type :=
| VNone
| VBool (b : bool)
| VInt (z : Z)
| VFloat (f : spec_float)
| VStr (s : string)
| VList (l : list pyval)
| VDict (d : list (string * pyval))
| VExn (e : exn).

Definition dict : Type := list (string * pyval).

Inductive result (A : Type) : Type :=
| Ret (a : A)
| Raise (e : exn).
Arguments Ret {A} a.
Arguments Raise {A} e.

Definition is_IOError (e : exn) : bool :=
  match e with IOError _ => true | _ => false end.
Definition is_TypeError (e : exn) : bool :=
  match e with TypeError => true | _ => false end.
Definition is_ValueError (e : exn) : bool :=
  match e with ValueError => true | _ => false end.

(** [k in d], [d[k]] and [d[k] = v] on a dict. *)
Fixpoint dict_get (k : string) (d : dict) : option pyval :=
  match d with
  | [] => None
  | (k', v) :: r => if String.eqb k k' then Some v else dict_get k r
  end.

Definition dict_mem (k : string) (d : dict) : bool :=
  match dict_get k d with Some _ => true | None => false end.

Fixpoint dict_set (k : string) (v : pyval) (d : dict) : dict :=
  match d with
  | [] => [(k, v)]
  | (k', v') :: r =>
      if String.eqb k k' then (k', v) :: r else (k', v') :: dict_set k v r
  end.

(** [bool(v)]. *)
Definition truthy (v : pyval) : bool :=
  match v with
  | VNone => false
  | VBool b => b
  | VInt z => negb (z =? 0)
  | VFloat (S754_zero _) => false
  | VFloat _ => true
  | VStr s => negb (String.eqb s "")
  | VList l => match l with [] => false | _ => true end
  | VDict d => match d with [] => false | _ => true end
  | VExn _ => true
  end.

(** [v == None] and [v != "mark"]. *)
Definition is_None (v : pyval) : bool :=
  match v with VNone => true | _ => false end.

Definition eq_str (v : pyval) (s : string) : bool :=
  match v with VStr s' => String.eqb s' s | _ => false end.

(** [v[k]] for a string [k]: a lookup on a dict, [KeyError] when the key is
    missing, [TypeError] on every other value of the universe. *)
Definition getitem (v : pyval) (k : string) : result pyval :=
  match v with
  | VDict d =>
      match dict_get k d with
      | Some x => Ret x
      | None => Raise (KeyError k)
      end
  | _ => Raise TypeError
  end.

(** [v[k] = x]. *)
Definition setitem (v : pyval) (k : string) (x : pyval) : result dict :=
  match v with
  | VDict d => Ret (dict_set k x d)
  | _ => Raise TypeError
  end.

(** The characters of a string.  A [string] being its UTF-8 bytes, a
    character outside ASCII comes as its bytes, one after the other, where
    Python gives one character. *)
Fixpoint chars (s : string) : list pyval :=
  match s with
  | EmptyString => []
  | String c r => VStr (String c EmptyString) :: chars r
  end.

(** Iteration, as [list.extend] and [set] do it: the elements of a list, the
    characters of a string, the keys of a dict. *)
Definition iter (v : pyval) : result (list pyval) :=
  match v with
  | VList l => Ret l
  | VStr s => Ret (chars s)
  | VDict d => Ret (map (fun kv => VStr (fst kv)) d)
  | _ => Raise TypeError
  end.

(** [k in v] for a string [k]: a key of a dict, an element of a list, a
    substring of a string. *)
Definition contains (v : pyval) (k : string) : result bool :=
  match v with
  | VDict d => Ret (dict_mem k d)
  | VList l => Ret (existsb (fun x => eq_str x k) l)
  | VStr s => Ret (match String.index 0 k s with Some _ => true | None => false end)
  | _ => Raise TypeError
  end.

(** Lists and dicts have no hash: [set] refuses them. *)
Definition hashable (v : pyval) : bool :=
  match v with
  | VList _ | VDict _ => false
  | _ => true
  end.

(** [set(v)]; the model keeps the elements in a list, membership is all the
    module asks of the set. *)
Definition py_set (v : pyval) : result (list pyval) :=
  match iter v with
  | Ret l => if forallb hashable l then Ret l else Raise TypeError
  | Raise e => Raise e
  end.

(** [str(z)] for an [int]. *)
Definition str_int (z : Z) : string := NilZero.string_of_int (Z.to_int z).

(** ** base64.b64encode *)

Definition b64_alphabet : string :=
  "ABCDEFGHIJKLMNOPQRSTUVWXYZabcdefghijklmnopqrstuvwxyz0123456789+/".

Definition b64_char (n : N) : ascii :=
  match String.get (N.to_nat n) b64_alphabet with
  | Some c => c
  | None => "="%char
  end.

Fixpoint b64_groups (l : list N) : string :=
  match l with
  | [] => ""
  | [a] =>
      String (b64_char (a / 4))
        (String (b64_char ((a mod 4) * 16)) "==")
  | [a; b] =>
      String (b64_char (a / 4))
        (String (b64_char ((a mod 4) * 16 + b / 16))
           (String (b64_char ((b mod 16) * 4)) "="))
  | a :: b :: c :: r =>
      String (b64_char (a / 4))
        (String (b64_char ((a mod 4) * 16 + b / 16))
           (String (b64_char ((b mod 16) * 4 + c / 64))
              (String (b64_char (c mod 64)) (b64_groups r))))
  end%N.

(** A [string] is the sequence of its UTF-8 bytes, so
    [bytes(s, 'utf-8')] is [s] itself. *)
Definition b64encode (s : string) : string :=
  b64_groups (map N_of_ascii (list_ascii_of_string s)).

(** ** The runtime: HTTP session and library functions *)

Inductive method : Type := GET | POST | DELETE.

(** What a request carries besides its query parameters: nothing, a raw body
    ([data=]) or a JSON document ([json=]). *)
Inductive payload : Type :=
| NoBody
| Data (bytes : string)
| Json (note : dict).

Record Request : Type := mkRequest {
  req_method : method;
  req_url : string;
  req_params : dict;
  req_body : payload
}.

(** A [requests.Response]: [text] is the body, [json] what [response.json()]
    gives, a value or the exception the decoder raises. *)
Record Response : Type := mkResponse {
  status_code : Z;
  text : string;
  json : result pyval
}.

(** The result of [datetime.datetime.strptime(s, "%Y-%m-%d")]. *)
Record datetime : Type := mkDate { year : Z; month : Z; day : Z }.

Class Runtime : Type := {
  (** [requests.Session]: given the requests already made, the answer to the
      next one, a response or the exception the call raises. *)
  transport : list Request -> Request -> result Response;
  (** the built-in [str] on the values that are not a [str] *)
  str_other : pyval -> string;
  (** [strptime] with the format ["%Y-%m-%d"] on a [str]; [None] when it
      raises [ValueError] *)
  strptime_ymd : string -> option datetime;
  (** [time.mktime(d.timetuple())], a [float], or the exception it raises
      for a date the platform cannot represent *)
  mktime : datetime -> result spec_float
}.

(** ** The client object and its monad *)

(** The fields of a [Simplenote] instance, the requests made so far (oldest
    first), and the clock read by [time.time()]. *)
Record World : Type := mkWorld {
  username : string;
  password : string;
  token : pyval;
  mark : pyval;
  sent : list Request;
  clock : spec_float
}.

Definition set_token (t : pyval) (w : World) : World :=
  mkWorld (username w) (password w) t (mark w) (sent w) (clock w).
Definition set_mark (m : pyval) (w : World) : World :=
  mkWorld (username w) (password w) (token w) m (sent w) (clock w).
Definition log_request (r : Request) (w : World) : World :=
  mkWorld (username w) (password w) (token w) (mark w) (sent w ++ [r]) (clock w).

(** [Simplenote(username, password)] *)
Definition init (user pass : string) (now : spec_float) : World :=
  mkWorld user pass VNone (VStr "mark") [] now.

Definition M (A : Type) : Type := World -> result A * World.

Definition ret {A} (a : A) : M A := fun w => (Ret a, w).
Definition raise {A} (e : exn) : M A := fun w => (Raise e, w).
Definition bind {A B} (m : M A) (k : A -> M B) : M B :=
  fun w =>
    match m w with
    | (Ret a, w') => k a w'
    | (Raise e, w') => (Raise e, w')
    end.
Definition lift {A} (r : result A) : M A := fun w => (r, w).
Definition get {A} (f : World -> A) : M A := fun w => (Ret (f w), w).
Definition modify (f : World -> World) : M unit := fun w => (Ret tt, f w).

Declare Scope py_scope.
Delimit Scope py_scope with py.
Notation "x <- m ;; k" := (bind m (fun x => k))
  (at level 61, m at next level, right associativity) : py_scope.
Notation "' p <- m ;; k" := (bind m (fun x => match x with p => k end))
  (at level 61, p pattern, m at next level, right associativity) : py_scope.
Notation "m ;;; k" := (bind m (fun _ => k))
  (at level 61, right associativity) : py_scope.
Local Open Scope py_scope.

(** *** try / except

    An [except] clause is the expression that names the exception class,
    evaluated only when an exception reaches the clause, and the handler.
    The clauses are tried in order; an exception that none matches goes
    on. *)
Definition clause (A : Type) : Type := result (exn -> bool) * (exn -> M A).

Fixpoint except {A} (e : exn) (cs : list (clause A)) : M A :=
  match cs with
  | [] => raise e
  | (Raise ne, _) :: _ => raise ne
  | (Ret matches, h) :: rest => if matches e then h e else except e rest
  end.

Definition try {A} (body : M A) (cs : list (clause A)) : M A :=
  fun w =>
    match body w with
    | (Ret a, w') => (Ret a, w')
    | (Raise e, w') => except e cs w'
    end.

(** The names after [except].  [IOError], [TypeError] and [ValueError] are
    built-ins.  The module imports [base64], [datetime], [json], [requests],
    [sys] and [time] and nothing else: [HTTPError] is bound neither in the
    module nor in the built-ins, and evaluating it raises [NameError]. *)
Definition name_HTTPError : result (exn -> bool) := Raise (NameError "HTTPError").
Definition name_IOError : result (exn -> bool) := Ret is_IOError.
Definition name_TypeError : result (exn -> bool) := Ret is_TypeError.
Definition name_TypeError_ValueError : result (exn -> bool) :=
  Ret (fun e => is_TypeError e || is_ValueError e).

(** ** The module *)

Definition AUTH_URL : string := "https://app.simplenote.com/api/login".
Definition DATA_URL : string := "https://app.simplenote.com/api2/data".
Definition INDX_URL : string := "https://app.simplenote.com/api2/index?".
Definition NOTE_FETCH_LENGTH : Z := 100.

Section Client.
Context {rt : Runtime}.

(** [self.session.get / post / delete]: the request is logged and answered
    by the transport. *)
Definition request (r : Request) : M Response :=
  fun w => (transport (sent w) r, log_request r w).

Definition session_post (url : string) (params : dict) (body : payload) : M Response :=
  request (mkRequest POST url params body).
Definition session_get (url : string) (params : dict) : M Response :=
  request (mkRequest GET url params NoBody).
Definition session_delete (url : string) (params : dict) : M Response :=
  request (mkRequest DELETE url params NoBody).

(** [time.time()] *)
Definition time_time : M pyval := get (fun w => VFloat (clock w)).

(** [str(v)], as [format] and [%s] apply it: a [str] is itself. *)
Definition py_str (v : pyval) : string :=
  match v with
  | VStr s => s
  | _ => str_other v
  end.

(** [authenticate(self, user, password)].  [bytes(auth_params, 'utf-8')]
    does not raise for a [str], so the [except TypeError] fallback of the
    first [try] is not taken.  The POST is made before the second [try],
    whose body only reads [response.text]. *)
Definition authenticate (user pass : string) : M pyval :=
  let auth_params := ("email=" ++ user ++ "&password=" ++ pass)%string in
  let values := b64encode auth_params in
  response <- session_post AUTH_URL [] (Data values) ;;
  try (ret (VStr (text response)))
      [ (name_HTTPError,
          fun _ => raise (SimplenoteLoginFailed "Login to Simplenote API failed!"));
        (name_IOError, fun _ => ret VNone) ].

(** [str(v, 'utf-8')]: decoding is for [bytes]; on [None], a [str] and every
    other value of the universe it raises [TypeError]. *)
Definition str_utf8 (v : pyval) : M pyval := raise TypeError.

(** [get_token(self)] *)
Definition get_token : M pyval :=
  tok <- get token ;;
  (if is_None tok
   then t <- (u <- get username ;; p <- get password ;; authenticate u p) ;;
        modify (set_token t)
   else ret tt) ;;;
  tok <- get token ;;
  try (str_utf8 tok) [ (name_TypeError, fun _ => get token) ].

(** [get_auth_params(self)] *)
Definition get_auth_params : M dict :=
  t <- get_token ;;
  u <- get username ;;
  ret [("auth", t); ("email", VStr u)].

(** [__encode] and [__decode] only act when [sys.version_info < (3, 0)]. *)
Definition __encode (note : pyval) : pyval := note.
Definition __decode (note : dict) : dict := note.

(** [get_note(self, noteid, version=None)].  The auth parameters are
    computed inside the [try], as arguments of the call.  A handler leaves
    the method with its pair; otherwise the response is decoded. *)
Definition get_note (noteid : string) (version : option Z) : M (pyval * Z) :=
  let params_version :=
    match version with
    | Some v => ("/" ++ str_int v)%string
    | None => ""
    end in
  let url := (DATA_URL ++ "/" ++ noteid ++ params_version)%string in
  r <- try (params <- get_auth_params ;;
            response <- session_get url params ;;
            ret (inl response))
           [ (name_HTTPError, fun e => ret (inr (VExn e, -1)));
             (name_IOError, fun e => ret (inr (VExn e, -1))) ] ;;
  match r with
  | inr early => ret early
  | inl response =>
      note <- lift (json response) ;;
      ret (__encode note, 0)
  end.

(** [update_note(self, note)], for a [note] that is a dict. *)
Definition update_note (note : dict) : M (pyval * Z) :=
  let note := __decode note in
  '(note, url) <-
    (match dict_get "key" note with
     | Some key =>
         note <- (if negb (dict_mem "modifydate" note)
                  then now <- time_time ;; ret (dict_set "modifydate" now note)
                  else ret note) ;;
         ret (note, (DATA_URL ++ "/" ++ py_str key)%string)
     | None => ret (note, DATA_URL)
     end) ;;
  r <- try (params <- get_auth_params ;;
            response <- session_post url params (Json note) ;;
            ret (inl response))
           [ (name_IOError, fun e => ret (inr (VExn e, -1))) ] ;;
  match r with
  | inr early => ret early
  | inl response =>
      note <- lift (json response) ;;
      ret (__encode note, 0)
  end.

(** [add_note(self, note)] *)
Definition add_note (note : pyval) : M (pyval * Z) :=
  match note with
  | VStr s => update_note [("content", VStr s)]
  | VDict d =>
      if dict_mem "content" d then update_note d
      else ret (VStr "No string or valid note.", -1)
  | _ => ret (VStr "No string or valid note.", -1)
  end.

(** [if self.mark != "mark": params['mark'] = self.mark] *)
Definition with_mark (m : pyval) (params : dict) : dict :=
  if negb (eq_str m "mark") then dict_set "mark" m params else params.

(** [__get_notes(self, notes, params)].  [notes] is the dict
    [{"data": acc}] that [get_note_list] creates, carried as [acc]; [params]
    is updated in place, so the caller sees the change: it is returned with
    the result. *)
Definition __get_notes (acc : list pyval) (params : dict)
  : M (list pyval * dict * Z) :=
  m <- get mark ;;
  let params := with_mark m params in
  '(notes_index, acc, status) <-
    try (response <- session_get INDX_URL params ;;
         notes_index <- lift (json response) ;;
         data <- lift (getitem notes_index "data") ;;
         items <- lift (iter data) ;;
         ret (notes_index, acc ++ items, 0))
        [ (name_IOError, fun _ => ret (VDict [], acc, -1)) ] ;;
  has_mark <- lift (contains notes_index "mark") ;;
  (if has_mark : bool
   then m <- lift (getitem notes_index "mark") ;; modify (set_mark m)
   else modify (set_mark (VStr ""))) ;;;
  ret (acc, params, status).

(** [while self.mark: notes, status = self.__get_notes(notes, params)].
    The loop has no bound of its own: [None] when it is still running after
    [fuel] rounds, with the world as those rounds left it. *)
Fixpoint fetch_all (fuel : nat) (acc : list pyval) (params : dict) (status : Z)
    (w : World) {struct fuel} : option (result (list pyval * Z)) * World :=
  if truthy (mark w) then
    match fuel with
    | O => (None, w)
    | S fuel' =>
        match __get_notes acc params w with
        | (Ret (acc', params', status'), w') =>
            fetch_all fuel' acc' params' status' w'
        | (Raise e, w') => (Some (Raise e), w')
        end
    end
  else (Some (Ret (acc, status)), w).

(** The [try] around [strptime] and [mktime]: [strptime] raises [TypeError]
    when [since] is not a [str] and [ValueError] when it does not match. *)
Definition since_timestamp (since : pyval) : result pyval :=
  match since with
  | VStr s =>
      match strptime_ymd s with
      | Some d =>
          match mktime d with
          | Ret t => Ret (VFloat t)
          | Raise e => Raise e
          end
      | None => Raise ValueError
      end
  | _ => Raise TypeError
  end.

Definition add_since (since : pyval) (params : dict) : M dict :=
  try (sinceUT <- lift (since_timestamp since) ;;
       ret (dict_set "since" sinceUT params))
      [ (name_TypeError_ValueError, fun _ => ret params) ].

(** [len(set(n["tags"]).intersection(tags)) > 0] *)
Definition has_tag (tags : list string) (n : pyval) : result bool :=
  match getitem n "tags" with
  | Raise e => Raise e
  | Ret v =>
      match py_set v with
      | Raise e => Raise e
      | Ret s => Ret (existsb (fun x => existsb (eq_str x) tags) s)
      end
  end.

(** The list comprehension of [get_note_list]. *)
Fixpoint filter_tags (tags : list string) (l : list pyval) : result (list pyval) :=
  match l with
  | [] => Ret []
  | n :: r =>
      match has_tag tags n with
      | Raise e => Raise e
      | Ret b =>
          match filter_tags tags r with
          | Raise e => Raise e
          | Ret r' => Ret (if b then n :: r' else r')
          end
      end
  end.

(** [if (len(tags) > 0): note_list = [...]] *)
Definition filter_by_tags (tags : list string) (note_list : list pyval)
  : result (list pyval) :=
  if 0 <? Z.of_nat (List.length tags) then filter_tags tags note_list
  else Ret note_list.

(** What [get_note_list] does before the loop: reset the mark, build the
    query parameters. *)
Definition list_params (since : pyval) : M dict :=
  modify (set_mark (VStr "mark")) ;;;
  params <- get_auth_params ;;
  let params := dict_set "length" (VInt NOTE_FETCH_LENGTH) params in
  add_since since params.

(** [get_note_list(self, since=None, tags=[])] *)
Definition get_note_list (fuel : nat) (since : pyval) (tags : list string)
    (w : World) : option (result (list pyval * Z)) * World :=
  match list_params since w with
  | (Raise e, w1) => (Some (Raise e), w1)
  | (Ret params, w1) =>
      match fetch_all fuel [] params 0 w1 with
      | (None, w2) => (None, w2)
      | (Some (Raise e), w2) => (Some (Raise e), w2)
      | (Some (Ret (note_list, status)), w2) =>
          match filter_by_tags tags note_list with
          | Ret l => (Some (Ret (l, status)), w2)
          | Raise e => (Some (Raise e), w2)
          end
      end
  end.

(** [trash_note] and [delete_note] call the other methods through [self]:
    the methods are looked up on the instance, and a subclass or a test
    double may replace them.  [trash_note_via] and [delete_note_via] take the
    methods they call as arguments; [trash_note] and [delete_note] are the
    module's own, tied to [get_note], [update_note] and [trash_note]. *)
Definition trash_note_via
    (self_get_note : string -> option Z -> M (pyval * Z))
    (self_update_note : dict -> M (pyval * Z))
    (note_id : string) : M (pyval * Z) :=
  '(note, status) <- self_get_note note_id None ;;
  if status =? -1 then ret (note, status)
  else
    note <- lift (setitem note "deleted" (VInt 1)) ;;
    self_update_note note.

Definition trash_note : string -> M (pyval * Z) :=
  trash_note_via get_note update_note.

(** [url] is built and not used: the request goes to [DATA_URL]. *)
Definition delete_note_via
    (self_trash_note : string -> M (pyval * Z))
    (note_id : string) : M (pyval * Z) :=
  '(note, status) <- self_trash_note note_id ;;
  if status =? -1 then ret (note, status)
  else
    let url := (DATA_URL ++ "/" ++ note_id)%string in
    r <- try (params <- get_auth_params ;;
              _ <- session_delete DATA_URL params ;;
              ret None)
             [ (name_IOError, fun e => ret (Some (VExn e, -1))) ] ;;
    match r with
    | Some early => ret early
    | None => ret (VDict [], 0)
    end.

Definition delete_note : string -> M (pyval * Z) :=
  delete_note_via trash_note.

End Client.

(** ** A reference runtime

    A runtime to run the module on: a scripted session that answers the
    n-th request with the n-th entry of a script, and the library functions
    the module calls, on ASCII input and in the UTC time zone. *)

Definition connection_error : exn := IOError "ConnectionError".

(** Once the script is used up the session raises [ConnectionError]. *)
Definition scripted (script : list (result Response))
  : list Request -> Request -> result Response :=
  fun history _ => nth (List.length history) script (Raise connection_error).

(** A response with a JSON body and one with a plain body. *)
Definition ok_json (v : pyval) : result Response :=
  Ret (mkResponse 200 "" (Ret v)).
Definition ok_text (code : Z) (body : string) : result Response :=
  Ret (mkResponse code body (Raise ValueError)).

(** A page of the index: [{"data": notes}] with its ["mark"], if any. *)
Definition page (notes : list pyval) (mk : option pyval) : dict :=
  ("data", VList notes) :: match mk with Some m => [("mark", m)] | None => [] end.

(** [str] of [None], [bool] and [int]. *)
Definition str_scalar (v : pyval) : string :=
  match v with
  | VNone => "None"
  | VBool true => "True"
  | VBool false => "False"
  | VInt z => str_int z
  | _ => "..."
  end.

Definition digit (c : ascii) : option Z :=
  let n := Z.of_N (N_of_ascii c) in
  if (48 <=? n) && (n <=? 57) then Some (n - 48) else None.

(** The directive [%Y] is [\d\d\d\d]. *)
Definition parse_year (l : list ascii) : option (Z * list ascii) :=
  match l with
  | a :: b :: c :: d :: r =>
      match digit a, digit b, digit c, digit d with
      | Some a, Some b, Some c, Some d => Some (1000 * a + 100 * b + 10 * c + d, r)
      | _, _, _, _ => None
      end
  | _ => None
  end.

(** [%m] is [1[0-2]|0[1-9]|[1-9]], the alternatives tried in this order. *)
Definition parse_month (l : list ascii) : option (Z * list ascii) :=
  match l with
  | [] => None
  | a :: r =>
      match digit a with
      | None => None
      | Some x =>
          let two :=
            match r with
            | b :: r' =>
                match digit b with
                | Some y =>
                    if (x =? 1) && (y <=? 2) then Some (10 + y, r')
                    else if (x =? 0) && (1 <=? y) then Some (y, r')
                    else None
                | None => None
                end
            | [] => None
            end in
          match two with
          | Some m => Some m
          | None => if 1 <=? x then Some (x, r) else None
          end
      end
  end.

(** [%d] is [3[0-1]|[1-2]\d|0[1-9]|[1-9]| [1-9]]. *)
Definition parse_day (l : list ascii) : option (Z * list ascii) :=
  match l with
  | [] => None
  | a :: r =>
      let two :=
        match digit a, r with
        | Some x, b :: r' =>
            match digit b with
            | Some y =>
                if (x =? 3) && (y <=? 1) then Some (30 + y, r')
                else if ((x =? 1) || (x =? 2)) then Some (10 * x + y, r')
                else if (x =? 0) && (1 <=? y) then Some (y, r')
                else None
            | None => None
            end
        | _, _ => None
        end in
      match two with
      | Some d => Some d
      | None =>
          match digit a with
          | Some x => if 1 <=? x then Some (x, r) else None
          | None =>
              match r with
              | b :: r' =>
                  if Ascii.eqb a " "%char then
                    match digit b with
                    | Some y => if 1 <=? y then Some (y, r') else None
                    | None => None
                    end
                  else None
              | [] => None
              end
          end
      end
  end.

Definition leap (y : Z) : bool :=
  ((y mod 4 =? 0) && negb (y mod 100 =? 0)) || (y mod 400 =? 0).

Definition days_in_month (y m : Z) : Z :=
  if m =? 2 then (if leap y then 29 else 28)
  else if (m =? 4) || (m =? 6) || (m =? 9) || (m =? 11) then 30
  else 31.

Definition expect_dash (l : list ascii) : option (list ascii) :=
  match l with
  | c :: r => if Ascii.eqb c "-"%char then Some r else None
  | [] => None
  end.

(** [strptime(s, "%Y-%m-%d")]: the whole string has to match, and the
    fields have to make a date of the calendar, from year 1 on. *)
Definition strptime_ascii (s : string) : option datetime :=
  match parse_year (list_ascii_of_string s) with
  | None => None
  | Some (y, r) =>
      match expect_dash r with
      | None => None
      | Some r =>
          match parse_month r with
          | None => None
          | Some (m, r) =>
              match expect_dash r with
              | None => None
              | Some r =>
                  match parse_day r with
                  | Some (d, []) =>
                      if (1 <=? y) && (d <=? days_in_month y m)
                      then Some (mkDate y m d) else None
                  | _ => None
                  end
              end
          end
      end
  end.

(** Days from 1970-01-01 to a date of the Gregorian calendar. *)
Definition days_from_epoch (d : datetime) : Z :=
  let y := if month d <=? 2 then year d - 1 else year d in
  let era := y / 400 in
  let yoe := y - era * 400 in
  let mp := (month d + 9) mod 12 in
  let doy := (153 * mp + 2) / 5 + day d - 1 in
  let doe := yoe * 365 + yoe / 4 - yoe / 100 + doy in
  era * 146097 + doe - 719468.

Definition float_of_Z (z : Z) : spec_float := binary_normalize 53 1024 z 0 false.

(** [time.mktime] where local time is UTC. *)
Definition mktime_utc (d : datetime) : result spec_float :=
  Ret (float_of_Z (86400 * days_from_epoch d)).

Definition scripted_runtime (script : list (result Response)) : Runtime :=
  {| transport := scripted script;
     str_other := str_scalar;
     strptime_ymd := strptime_ascii;
     mktime := mktime_utc |}.

(** Notes and an instance to run the examples on. *)
Definition noteA : pyval := VDict [("key", VStr "a"); ("tags", VList [VStr "x"])].
Definition noteB : pyval :=
  VDict [("key", VStr "b"); ("tags", VList [VStr "y"]); ("deleted", VInt 1)].
Definition noteC : pyval := VDict [("key", VStr "c"); ("tags", VList [])].
Definition noteD : pyval := VDict [("key", VStr "d")].

Definition noteK : dict := [("key", VStr "k1"); ("content", VStr "hi")].

Definition noon : spec_float := float_of_Z 1579089600.
Definition client : World := init "me@example.org" "secret" noon.
Definition logged_in : World := set_token (VStr "TOKEN") client.

Definition pageAB : dict := page [noteA; noteB] (Some (VStr "m1")).
Definition pageC : dict := page [noteC] (Some (VStr "")).
Definition pageAD : dict := page [noteA; noteD] None.

(** A login, then the two pages of the index. *)
Definition two_pages : Runtime :=
  scripted_runtime [ok_text 200 "TOKEN"; ok_json (VDict pageAB); ok_json (VDict pageC)].

(** A login and one page, then the connection is lost. *)
Definition one_page_then_down : Runtime :=
  scripted_runtime [ok_text 200 "TOKEN"; ok_json (VDict pageAB)].

(** A first page whose mark is the string ["mark"]. *)
Definition sentinel_pages : Runtime :=
  scripted_runtime
    [ok_text 200 "TOKEN";
     ok_json (VDict (page [noteA] (Some (VStr "mark"))));
     ok_json (VDict (page [noteB] None))].

(** A page with a record that has no tags. *)
Definition untagged_page : Runtime :=
  scripted_runtime [ok_text 200 "TOKEN"; ok_json (VDict pageAD)].

(** A login answered with an empty body, the next with a token. *)
Definition empty_login : Runtime :=
  scripted_runtime [ok_text 200 ""; ok_text 200 "TOKEN"].

(** No connection, and a login refused with status 401. *)
Definition offline : Runtime := scripted_runtime [].
Definition refused : Runtime := scripted_runtime [ok_text 401 "Unauthorized"].

(** A login, the note fetched, the note updated, the answer to DELETE. *)
Definition note_server : Runtime :=
  scripted_runtime
    [ok_text 200 "TOKEN"; ok_json (VDict noteK);
     ok_json (VDict (dict_set "deleted" (VInt 1) noteK)); ok_text 200 ""].

(** A login and a page with a record that has no tags, then the connection
    is lost. *)
Definition untagged_then_down : Runtime :=
  scripted_runtime
    [ok_text 200 "TOKEN"; ok_json (VDict (page [noteA; noteD] (Some (VStr "m1"))))].

(** The pages marked ["m1"], ["mark"] and without a mark. *)
Definition stale_pages : Runtime :=
  scripted_runtime
    [ok_text 200 "TOKEN";
     ok_json (VDict pageAB);
     ok_json (VDict (page [noteC] (Some (VStr "mark"))));
     ok_json (VDict (page [noteD] None))].

(** ** Vocabulary of the statements *)

(** The requests the module makes for a login and for a page of the index. *)
Definition login_request (user pass : string) : Request :=
  mkRequest POST AUTH_URL []
    (Data (b64encode ("email=" ++ user ++ "&password=" ++ pass)%string)).

Definition listing_request (params : dict) : Request :=
  mkRequest GET INDX_URL params NoBody.

(** The parameters [get_auth_params] returns for a token. *)
Definition auth_params (tok : pyval) (user : string) : dict :=
  [("auth", tok); ("email", VStr user)].

(** A page of the index is the JSON object of a response.  It is well formed
    when its ["data"] is an array; [page_notes] is that array and
    [page_mark] the mark the client keeps after the page: the ["mark"] of the
    page, the empty string when there is none. *)
Definition well_formed_page (d : dict) : Prop :=
  exists l, dict_get "data" d = Some (VList l).

Definition page_notes (d : dict) : list pyval :=
  match dict_get "data" d with
  | Some (VList l) => l
  | _ => []
  end.

Definition page_mark (d : dict) : pyval :=
  match dict_get "mark" d with
  | Some m => m
  | None => VStr ""
  end.

(** The session answers its [k]-th request and the following ones with the
    pages [bodies], whatever the requests are. *)
Definition serves {rt : Runtime} (k : nat) (bodies : list dict) : Prop :=
  forall i d history req,
    nth_error bodies i = Some d ->
    List.length history = (k + i)%nat ->
    exists r, transport history req = Ret r /\ json r = Ret (VDict d).

(** A record with a ["tags"] field that is a list of hashable values, and a
    record without the field. *)
Definition tagged (n : pyval) : Prop :=
  exists d ts,
    n = VDict d /\ dict_get "tags" d = Some (VList ts) /\ forallb hashable ts = true.

Definition lacks_tags (n : pyval) : Prop :=
  exists d, n = VDict d /\ dict_get "tags" d = None.

(** The filter in the words of the specification: a record is kept when its
    tags and the requested tags have an element in common. *)
Definition spec_shares_tag (tags : list string) (n : pyval) : bool :=
  match n with
  | VDict d =>
      match dict_get "tags" d with
      | Some (VList ts) => existsb (fun x => existsb (eq_str x) tags) ts
      | _ => false
      end
  | _ => false
  end.

(** [since] is absent ([None]), not a string, or a string [strptime]
    rejects. *)
Definition absent_or_unparsable {rt : Runtime} (since : pyval) : Prop :=
  match since with
  | VStr s => strptime_ymd s = None
  | _ => True
  end.

(** *** Single notes *)

(** The endpoint [get_note] asks, and the endpoint and the document
    [update_note] posts for a note, [now] being the time of the call. *)
Definition note_url (noteid : string) (version : option Z) : string :=
  (DATA_URL ++ "/" ++ noteid ++
   match version with
   | Some v => "/" ++ str_int v
   | None => ""
   end)%string.

Definition update_url {rt : Runtime} (note : dict) : string :=
  match dict_get "key" note with
  | Some key => (DATA_URL ++ "/" ++ py_str key)%string
  | None => DATA_URL
  end.

Definition posted_note (now : spec_float) (note : dict) : dict :=
  if dict_mem "key" note && negb (dict_mem "modifydate" note)
  then dict_set "modifydate" (VFloat now) note
  else note.

(** *** Answered requests *)

(** [answered history reqs notes]: made one after the other from [history]
    on, each request of [reqs] is answered with a JSON object whose ["data"]
    can be iterated, and [notes] is what these pages hold, in order. *)
Inductive answered {rt : Runtime}
  : list Request -> list Request -> list pyval -> Prop :=
| answered_nil (history : list Request) : answered history [] []
| answered_cons (history : list Request) (req : Request) (r : Response)
    (d : dict) (data : pyval) (items : list pyval)
    (reqs : list Request) (notes : list pyval) :
    transport history req = Ret r ->
    json r = Ret (VDict d) ->
    dict_get "data" d = Some data ->
    iter data = Ret items ->
    answered (history ++ [req]) reqs notes ->
    answered history (req :: reqs) (items ++ notes).

(** *** More sessions *)

(** Every request is answered with the same page, which has a mark. *)
Definition endless : Runtime :=
  {| transport := fun _ _ => ok_json (VDict pageAB);
     str_other := str_scalar;
     strptime_ymd := strptime_ascii;
     mktime := mktime_utc |}.

(** A platform whose [mktime] refuses every date. *)
Definition overflowing : Runtime :=
  {| transport := scripted [ok_text 200 "TOKEN"; ok_json (VDict pageC)];
     str_other := str_scalar;
     strptime_ymd := strptime_ascii;
     mktime := fun _ => Raise OverflowError |}.

(** A login and the note, then the connection is lost. *)
Definition lost_after_fetch : Runtime :=
  scripted_runtime [ok_text 200 "TOKEN"; ok_json (VDict noteK)].

(** The note is answered with a JSON array, and with a record that has no
    key. *)
Definition array_server : Runtime :=
  scripted_runtime [ok_text 200 "TOKEN"; ok_json (VList [VDict noteK])].
Definition keyless_server : Runtime :=
  scripted_runtime
    [ok_text 200 "TOKEN"; ok_json (VDict [("content", VStr "hi")]);
     ok_json (VDict noteK)].

(** A page, then an object without ["data"]; a page, then a body that is
    not JSON. *)
Definition no_data_page : Runtime :=
  scripted_runtime
    [ok_text 200 "TOKEN"; ok_json (VDict pageAB); ok_json (VDict [("count", VInt 0)])].

(** A login, the note fetched and updated, then the connection is lost. *)
Definition lost_before_delete : Runtime :=
  scripted_runtime
    [ok_text 200 "TOKEN"; ok_json (VDict noteK);
     ok_json (VDict (dict_set "deleted" (VInt 1) noteK))].

(** The parameters of a request after the login, and of the first listing
    request. *)
Definition credentials : dict :=
  [("auth", VStr "TOKEN"); ("email", VStr "me@example.org")].

Definition first_listing : dict :=
  [("auth", VStr "TOKEN"); ("email", VStr "me@example.org"); ("length", VInt 100)].

(** A note saved and answered by the server. *)
Definition saving_server : Runtime :=
  scripted_runtime [ok_json (VDict noteK)].

(** ** Properties *)

Ltac run :=
  unfold bind, ret, raise, lift, get, modify, try, request,
    session_get, session_post, session_delete; simpl.

Section Properties.
Context {rt : Runtime}.

(** *** Dictionaries *)

Lemma dict_get_set_same (k : string) (v : pyval) (d : dict) :
  dict_get k (dict_set k v d) = Some v.
Proof.
  induction d as [|[k' v'] d IH]; simpl.
  - now rewrite String.eqb_refl.
  - destruct (String.eqb k k') eqn:E; simpl; rewrite E; auto.
Qed.

Lemma dict_get_set_other (k k' : string) (v : pyval) (d : dict) :
  k <> k' -> dict_get k (dict_set k' v d) = dict_get k d.
Proof.
  intros N. induction d as [|[k0 v0] d IH]; simpl.
  - destruct (String.eqb_spec k k'); congruence.
  - destruct (String.eqb_spec k' k0) as [->|]; simpl.
    + destruct (String.eqb_spec k k0); congruence.
    + destruct (String.eqb_spec k k0); auto.
Qed.

Lemma dict_set_set (k : string) (v v' : pyval) (d : dict) :
  dict_set k v' (dict_set k v d) = dict_set k v' d.
Proof.
  induction d as [|[k0 v0] d IH]; simpl.
  - now rewrite String.eqb_refl.
  - destruct (String.eqb k k0) eqn:E; simpl; rewrite E; congruence.
Qed.

(** *** Authentication *)

Lemma authenticate_eq (user pass : string) (w : World) :
  authenticate user pass w =
  match transport (sent w) (login_request user pass) with
  | Ret r => (Ret (VStr (text r)), log_request (login_request user pass) w)
  | Raise e => (Raise e, log_request (login_request user pass) w)
  end.
Proof.
  unfold authenticate, login_request. run.
  destruct (transport _ _); reflexivity.
Qed.

Lemma get_token_cached (w : World) :
  token w <> VNone -> get_token w = (Ret (token w), w).
Proof.
  intros H. unfold get_token, str_utf8. run.
  destruct (token w) eqn:E; try congruence; simpl; rewrite E; reflexivity.
Qed.

Lemma get_token_fresh (w : World) :
  token w = VNone ->
  get_token w =
  match transport (sent w) (login_request (username w) (password w)) with
  | Ret r =>
      (Ret (VStr (text r)),
       set_token (VStr (text r))
         (log_request (login_request (username w) (password w)) w))
  | Raise e => (Raise e, log_request (login_request (username w) (password w)) w)
  end.
Proof.
  intros H. unfold get_token, str_utf8.
  unfold bind at 1. unfold get at 1. rewrite H. simpl.
  unfold bind at 1. unfold bind at 1. unfold bind at 1.
  unfold get at 1. unfold bind at 1. unfold get at 1.
  rewrite authenticate_eq.
  destruct (transport _ _); reflexivity.
Qed.

Lemma get_auth_params_cached (w : World) :
  token w <> VNone ->
  get_auth_params w = (Ret (auth_params (token w) (username w)), w).
Proof.
  intros H. unfold get_auth_params, bind at 1.
  rewrite (get_token_cached w H). reflexivity.
Qed.

(** *** One round of the pagination loop *)

Lemma get_notes_page (acc : list pyval) (params : dict) (w : World)
    (r : Response) (d : dict) :
  transport (sent w) (listing_request (with_mark (mark w) params)) = Ret r ->
  json r = Ret (VDict d) ->
  well_formed_page d ->
  __get_notes acc params w =
  (Ret (acc ++ page_notes d, with_mark (mark w) params, 0),
   set_mark (page_mark d)
     (log_request (listing_request (with_mark (mark w) params)) w)).
Proof.
  intros T J [l D]. unfold __get_notes, listing_request in *. run.
  rewrite T. simpl. rewrite J. simpl. rewrite D. simpl.
  unfold page_notes, page_mark, dict_mem. rewrite D.
  destruct (dict_get "mark" d); reflexivity.
Qed.

Lemma get_notes_failure (acc : list pyval) (params : dict) (w : World) (e : exn) :
  transport (sent w) (listing_request (with_mark (mark w) params)) = Raise e ->
  is_IOError e = true ->
  __get_notes acc params w =
  (Ret (acc, with_mark (mark w) params, -1),
   set_mark (VStr "")
     (log_request (listing_request (with_mark (mark w) params)) w)).
Proof.
  intros T E. unfold __get_notes, listing_request in *. run.
  rewrite T. simpl. rewrite E. reflexivity.
Qed.

(** Case analysis on the innermost scrutinee of the goal. *)
Ltac break_match :=
  match goal with
  | |- context [match ?x with _ => _ end] =>
      lazymatch x with
      | context [match _ with _ => _ end] => fail
      | _ => destruct x eqn:?; simpl
      end
  end.

(** A round makes one request, the listing request with the current mark,
    and hands back the parameters it sent. *)
Lemma get_notes_sent (acc : list pyval) (params : dict) (w : World) :
  sent (snd (__get_notes acc params w)) =
  sent w ++ [listing_request (with_mark (mark w) params)].
Proof.
  unfold __get_notes, listing_request. run.
  repeat break_match; reflexivity.
Qed.

Lemma get_notes_params (acc a : list pyval) (params p : dict) (s : Z)
    (w w' : World) :
  __get_notes acc params w = (Ret (a, p, s), w') -> p = with_mark (mark w) params.
Proof.
  unfold __get_notes. run.
  repeat break_match; intros H; inversion H; reflexivity.
Qed.

(** *** The pagination loop *)

Lemma fetch_all_stop (fuel : nat) (acc : list pyval) (params : dict) (st : Z)
    (w : World) :
  truthy (mark w) = false ->
  fetch_all fuel acc params st w = (Some (Ret (acc, st)), w).
Proof. intros H. destruct fuel; simpl; rewrite H; reflexivity. Qed.

Lemma fetch_all_round (fuel : nat) (acc : list pyval) (params : dict) (st : Z)
    (w : World) (d : dict) (rest : list dict) :
  truthy (mark w) = true ->
  serves (List.length (sent w)) (d :: rest) ->
  well_formed_page d ->
  fetch_all (S fuel) acc params st w =
  fetch_all fuel (acc ++ page_notes d) (with_mark (mark w) params) 0
    (set_mark (page_mark d)
       (log_request (listing_request (with_mark (mark w) params)) w)).
Proof.
  intros M S W. simpl. rewrite M.
  destruct (S 0%nat d (sent w) (listing_request (with_mark (mark w) params)))
    as (r & T & J); [reflexivity | lia |].
  rewrite (get_notes_page acc params w r d T J W). reflexivity.
Qed.

Lemma serves_tail (k : nat) (d : dict) (rest : list dict) :
  serves k (d :: rest) -> serves (S k) rest.
Proof.
  intros S i d' h req N L. apply (S (Datatypes.S i) d' h req); simpl; auto. lia.
Qed.

Lemma sent_log_request (r : Request) (w : World) :
  List.length (sent (log_request r w)) = S (List.length (sent w)).
Proof. simpl. rewrite length_app. simpl. lia. Qed.

(** The loop over pages with non-empty marks, followed by a page with an
    empty mark: [ps] are the parameters of the requests after the first,
    each obtained from the parameters of the request before it and the mark
    of the page that request was answered with. *)
Lemma fetch_all_walk (pages : list dict) (last : dict) :
  forall (fuel : nat) (acc : list pyval) (params : dict) (st : Z) (w : World),
    truthy (mark w) = true ->
    serves (List.length (sent w)) (pages ++ [last]) ->
    Forall well_formed_page (pages ++ [last]) ->
    Forall (fun d => truthy (page_mark d) = true) pages ->
    truthy (page_mark last) = false ->
    (List.length pages < fuel)%nat ->
    exists ps,
      fetch_all fuel acc params st w =
        (Some (Ret (acc ++ flat_map page_notes (pages ++ [last]), 0)),
         mkWorld (username w) (password w) (token w) (page_mark last)
           (sent w ++ map listing_request (with_mark (mark w) params :: ps))
           (clock w)) /\
      List.length ps = List.length pages /\
      (forall i d p,
          nth_error pages i = Some d ->
          nth_error (with_mark (mark w) params :: ps) i = Some p ->
          nth_error ps i = Some (with_mark (page_mark d) p)).
Proof.
  induction pages as [|d rest IH]; intros fuel acc params st w M S W G L F.
  - destruct fuel as [|fuel]; [simpl in F; lia|].
    simpl app in *. inversion W; subst.
    rewrite (fetch_all_round fuel acc params st w last [] M S); auto.
    rewrite fetch_all_stop by exact L.
    exists []. split; [|split].
    + simpl. rewrite app_nil_r. reflexivity.
    + reflexivity.
    + intros [|i] d p H; discriminate H.
  - destruct fuel as [|fuel]; [simpl in F; lia|].
    simpl app in *. inversion W; subst. inversion G; subst.
    rewrite (fetch_all_round fuel acc params st w d (rest ++ [last]) M S); auto.
    set (q := with_mark (mark w) params).
    destruct (IH fuel (acc ++ page_notes d) q 0
                (set_mark (page_mark d) (log_request (listing_request q) w)))
      as (ps & R & Len & N); auto.
    + apply serves_tail in S.
      match goal with
      | |- serves ?n _ =>
          replace n with (Datatypes.S (List.length (sent w))); [exact S|]
      end.
      simpl. rewrite length_app. simpl. lia.
    + simpl in F. lia.
    + simpl in R, N.
      exists (with_mark (page_mark d) q :: ps). split; [|split].
      * rewrite R. simpl. rewrite <- !app_assoc. reflexivity.
      * simpl. now rewrite Len.
      * intros [|i] d0 p Hd Hp; simpl in *.
        -- inversion Hd; inversion Hp; subst. reflexivity.
        -- now apply N.
Qed.

(** The loop over pages with non-empty marks, followed by a request that
    fails with an [IOError]. *)
Lemma fetch_all_failure (pages : list dict) (e : exn) :
  forall (fuel : nat) (acc : list pyval) (params : dict) (st : Z) (w : World),
    truthy (mark w) = true ->
    serves (List.length (sent w)) pages ->
    Forall well_formed_page pages ->
    Forall (fun d => truthy (page_mark d) = true) pages ->
    (forall history req,
        List.length history = (List.length (sent w) + List.length pages)%nat ->
        transport history req = Raise e) ->
    is_IOError e = true ->
    (List.length pages < fuel)%nat ->
    exists w',
      fetch_all fuel acc params st w =
        (Some (Ret (acc ++ flat_map page_notes pages, -1)), w') /\
      mark w' = VStr "" /\
      List.length (sent w') = (List.length (sent w) + List.length pages + 1)%nat.
Proof.
  induction pages as [|d rest IH]; intros fuel acc params st w M S W G T E F.
  - destruct fuel as [|fuel]; [simpl in F; lia|].
    simpl fetch_all. rewrite M.
    assert (TT : transport (sent w) (listing_request (with_mark (mark w) params))
                 = Raise e) by (apply T; simpl; lia).
    rewrite (get_notes_failure acc params w e TT E).
    rewrite fetch_all_stop by reflexivity.
    eexists; split; [|split].
    + simpl. now rewrite app_nil_r.
    + reflexivity.
    + simpl. rewrite length_app. simpl. lia.
  - destruct fuel as [|fuel]; [simpl in F; lia|].
    inversion W; subst. inversion G; subst.
    rewrite (fetch_all_round fuel acc params st w d rest M S); auto.
    edestruct IH as (w' & R & Mk & Len); cycle 7.
    + exists w'. rewrite R. split; [|split]; auto.
      * simpl. now rewrite <- app_assoc.
      * rewrite Len. simpl. rewrite ?length_app. simpl. lia.
    + assumption.
    + apply serves_tail in S.
      match goal with
      | |- serves ?n _ =>
          replace n with (Datatypes.S (List.length (sent w))); [exact S|]
      end.
      simpl. rewrite length_app. simpl. lia.
    + assumption.
    + assumption.
    + intros h req Hh. apply T. rewrite Hh. simpl. rewrite length_app. simpl. lia.
    + assumption.
    + simpl in F. lia.
Qed.

Lemma with_mark_other (k : string) (m : pyval) (params : dict) :
  k <> "mark" -> dict_get k (with_mark m params) = dict_get k params.
Proof.
  intros N. unfold with_mark. destruct (negb _); auto.
  now apply dict_get_set_other.
Qed.

(** Whatever the session answers and however long the loop runs, it only
    makes listing requests, and the parameters other than the mark do not
    change from one request to the next. *)
Lemma fetch_all_requests (k : string) :
  k <> "mark" ->
  forall (fuel : nat) (acc : list pyval) (params : dict) (st : Z) (w : World),
  exists reqs,
    sent (snd (fetch_all fuel acc params st w)) = sent w ++ reqs /\
    Forall (fun r => req_url r = INDX_URL /\
                     dict_get k (req_params r) = dict_get k params) reqs.
Proof.
  intros N. induction fuel as [|fuel IH]; intros acc params st w; simpl.
  - exists []. rewrite app_nil_r. destruct (truthy (mark w)); auto.
  - destruct (truthy (mark w)).
    2:{ exists []. rewrite app_nil_r. auto. }
    pose proof (get_notes_sent acc params w) as HS.
    destruct (__get_notes acc params w) as [[[[a p] s]|e] w'] eqn:E; simpl in HS.
    + apply get_notes_params in E. subst p.
      destruct (IH a (with_mark (mark w) params) s w') as (reqs & R & F).
      exists (listing_request (with_mark (mark w) params) :: reqs). split.
      * rewrite R, HS, <- app_assoc. reflexivity.
      * constructor.
        -- split; [reflexivity|]. simpl. now apply with_mark_other.
        -- eapply Forall_impl; [|exact F]. intros r [U D]. split; auto.
           rewrite D. now apply with_mark_other.
    + exists [listing_request (with_mark (mark w) params)]. split; auto.
      constructor; auto. split; [reflexivity|]. simpl. now apply with_mark_other.
Qed.

(** With fuel for one round, the loop makes its first request. *)
Lemma fetch_all_first (fuel : nat) (acc : list pyval) (params : dict) (st : Z)
    (w : World) :
  truthy (mark w) = true ->
  exists rest,
    sent (snd (fetch_all (S fuel) acc params st w)) =
    sent w ++ listing_request (with_mark (mark w) params) :: rest.
Proof.
  intros M. simpl. rewrite M.
  pose proof (get_notes_sent acc params w) as HS.
  destruct (__get_notes acc params w) as [[[[a p] s]|e] w'] eqn:E; simpl in HS.
  - destruct (fetch_all_requests "length" ltac:(discriminate) fuel a p s w')
      as (reqs & R & _).
    exists reqs. rewrite R, HS, <- app_assoc. reflexivity.
  - exists []. exact HS.
Qed.

(** *** The parameters of the listing requests *)

Lemma get_auth_params_eq (w : World) :
  get_auth_params w =
  if is_None (token w) then
    match transport (sent w) (login_request (username w) (password w)) with
    | Ret r =>
        (Ret (auth_params (VStr (text r)) (username w)),
         set_token (VStr (text r))
           (log_request (login_request (username w) (password w)) w))
    | Raise e =>
        (Raise e, log_request (login_request (username w) (password w)) w)
    end
  else (Ret (auth_params (token w) (username w)), w).
Proof.
  unfold get_auth_params, bind at 1.
  destruct (token w) eqn:E; simpl;
    try (rewrite get_token_cached by congruence; rewrite E; reflexivity).
  rewrite get_token_fresh by exact E.
  destruct (transport _ _); reflexivity.
Qed.

Lemma add_since_eq (since : pyval) (params : dict) (w : World) :
  add_since since params w =
  match since_timestamp since with
  | Ret ts => (Ret (dict_set "since" ts params), w)
  | Raise e =>
      if is_TypeError e || is_ValueError e then (Ret params, w) else (Raise e, w)
  end.
Proof.
  unfold add_since. run. destruct (since_timestamp since); simpl; auto.
  destruct (is_TypeError e || is_ValueError e); reflexivity.
Qed.

Lemma list_params_eq (since : pyval) (w : World) :
  list_params since w =
  match get_auth_params (set_mark (VStr "mark") w) with
  | (Ret auth, w1) =>
      add_since since (dict_set "length" (VInt NOTE_FETCH_LENGTH) auth) w1
  | (Raise e, w1) => (Raise e, w1)
  end.
Proof. unfold list_params. run. reflexivity. Qed.

(** After the setup the mark is the sentinel, only logins have been made,
    and [since] is among the parameters exactly when its conversion
    succeeded. *)
Lemma list_params_ret (since : pyval) (w w1 : World) (params : dict) :
  list_params since w = (Ret params, w1) ->
  mark w1 = VStr "mark" /\
  dict_get "mark" params = None /\
  dict_get "since" params =
    match since_timestamp since with Ret ts => Some ts | Raise _ => None end.
Proof.
  rewrite list_params_eq, get_auth_params_eq. simpl.
  destruct (is_None (token w)).
  - destruct (transport _ _); [|discriminate].
    rewrite add_since_eq.
    destruct (since_timestamp since) as [ts|e].
    + intros H; inversion H; subst; clear H. simpl. auto.
    + destruct (is_TypeError e || is_ValueError e); [|discriminate].
      intros H; inversion H; subst; clear H. simpl. auto.
  - rewrite add_since_eq.
    destruct (since_timestamp since) as [ts|e].
    + intros H; inversion H; subst; clear H. simpl. auto.
    + destruct (is_TypeError e || is_ValueError e); [|discriminate].
      intros H; inversion H; subst; clear H. simpl. auto.
Qed.

Lemma list_params_sent (since : pyval) (w : World) :
  exists reqs,
    sent (snd (list_params since w)) = sent w ++ reqs /\
    Forall (fun r => req_url r = AUTH_URL) reqs.
Proof.
  rewrite list_params_eq, get_auth_params_eq. simpl.
  destruct (is_None (token w)).
  - exists [login_request (username w) (password w)].
    split; [|repeat constructor].
    destruct (transport _ _); auto.
    rewrite add_since_eq. repeat break_match; reflexivity.
  - exists []. split; [|constructor]. rewrite app_nil_r.
    rewrite add_since_eq. repeat break_match; reflexivity.
Qed.

(** *** The tag filter *)

Lemma has_tag_tagged (tags : list string) (n : pyval) :
  tagged n -> has_tag tags n = Ret (spec_shares_tag tags n).
Proof.
  intros (d & ts & -> & T & H). unfold has_tag, py_set. simpl.
  rewrite T. simpl. rewrite H. reflexivity.
Qed.

Lemma has_tag_lacks (tags : list string) (n : pyval) :
  lacks_tags n -> has_tag tags n = Raise (KeyError "tags").
Proof. intros (d & -> & T). unfold has_tag. simpl. now rewrite T. Qed.

Lemma filter_tags_tagged (tags : list string) (l : list pyval) :
  Forall tagged l -> filter_tags tags l = Ret (filter (spec_shares_tag tags) l).
Proof.
  induction 1 as [|n l T _ IH]; simpl; auto.
  rewrite (has_tag_tagged tags n T), IH. reflexivity.
Qed.

(** The comprehension raises as soon as one record makes the test raise. *)
Lemma filter_tags_raises (tags : list string) (l : list pyval) :
  Exists (fun n => exists e, has_tag tags n = Raise e) l ->
  exists e, filter_tags tags l = Raise e.
Proof.
  induction 1 as [n l [e H]|n l _ [e IH]]; simpl.
  - rewrite H. eauto.
  - rewrite IH. destruct (has_tag tags n); eauto.
Qed.

Lemma filter_tags_first_missing (tags : list string) (good rest : list pyval)
    (n : pyval) :
  Forall tagged good -> lacks_tags n ->
  filter_tags tags (good ++ n :: rest) = Raise (KeyError "tags").
Proof.
  intros G L. induction G as [|g good T _ IH]; simpl.
  - now rewrite (has_tag_lacks tags n L).
  - now rewrite (has_tag_tagged tags g T), IH.
Qed.

Lemma filter_tags_returns (tags : list string) (l kept : list pyval) :
  filter_tags tags l = Ret kept ->
  Forall (fun n => exists b, has_tag tags n = Ret b) l.
Proof.
  revert kept. induction l as [|n l IH]; intros kept; simpl; auto.
  destruct (has_tag tags n) eqn:H; [|discriminate].
  destruct (filter_tags tags l) eqn:F; [|discriminate].
  intros _. constructor; eauto.
Qed.

Lemma filter_by_tags_nil (l : list pyval) : filter_by_tags [] l = Ret l.
Proof. reflexivity. Qed.

Lemma filter_by_tags_cons (tags : list string) (l : list pyval) :
  tags <> [] -> filter_by_tags tags l = filter_tags tags l.
Proof. destruct tags; [congruence|]. intros _. reflexivity. Qed.

(** [spec_shares_tag] is the test of a common element. *)
Lemma spec_shares_tag_iff (tags : list string) (d : dict) (ts : list pyval) :
  dict_get "tags" d = Some (VList ts) ->
  spec_shares_tag tags (VDict d) = true <->
  exists t, In t tags /\ In (VStr t) ts.
Proof.
  intros T. unfold spec_shares_tag. rewrite T. rewrite existsb_exists. split.
  - intros (x & I & E). apply existsb_exists in E as (t & It & Et).
    destruct x; try discriminate. simpl in Et.
    apply String.eqb_eq in Et. subst. eauto.
  - intros (t & It & I). exists (VStr t). split; auto.
    apply existsb_exists. exists t. split; auto. simpl. apply String.eqb_refl.
Qed.

(** The pagination does not depend on the requested tags. *)
Lemma get_note_list_world (fuel : nat) (since : pyval) (tags : list string)
    (w : World) :
  snd (get_note_list fuel since tags w) = snd (get_note_list fuel since [] w).
Proof.
  unfold get_note_list.
  destruct (list_params since w) as [[params|e] w1]; auto.
  destruct (fetch_all fuel [] params 0 w1) as [[[[l st]|e]|] w2]; auto.
  rewrite filter_by_tags_nil.
  destruct (filter_by_tags tags l); reflexivity.
Qed.

(** *** get_note_list: pagination *)

(** C1, as the module has it.  When the session answers the listing requests
    with the pages [pages ++ [last]], every page of [pages] carrying a
    non-empty mark and [last] an empty or absent one, [get_note_list()]
    returns the notes of all pages in page order with status 0, makes one
    listing request per page and stops at [last].  The request after a page
    carries the mark of that page, unless the mark is the string ["mark"]:
    then it has the parameters of the request before it, a mark sent
    earlier included. *)
Theorem get_note_list_pages (since : pyval) (w w1 : World) (params : dict)
    (pages : list dict) (last : dict) (fuel : nat) :
  list_params since w = (Ret params, w1) ->
  serves (List.length (sent w1)) (pages ++ [last]) ->
  Forall well_formed_page (pages ++ [last]) ->
  Forall (fun d => truthy (page_mark d) = true) pages ->
  truthy (page_mark last) = false ->
  (List.length pages < fuel)%nat ->
  exists w2 ps,
    get_note_list fuel since [] w =
      (Some (Ret (flat_map page_notes (pages ++ [last]), 0)), w2) /\
    sent w2 = sent w1 ++ map listing_request (params :: ps) /\
    List.length ps = List.length pages /\
    (forall i d p,
        nth_error pages i = Some d ->
        nth_error (params :: ps) i = Some p ->
        nth_error ps i =
        Some (if eq_str (page_mark d) "mark" then p
              else dict_set "mark" (page_mark d) p)) /\
    mark w2 = page_mark last.
Proof.
  intros LP S W G L F.
  destruct (list_params_ret since w w1 params LP) as (M & _ & _).
  destruct (fetch_all_walk pages last fuel [] params 0 w1) as (ps & R & Len & N);
    auto.
  { now rewrite M. }
  assert (Q : with_mark (mark w1) params = params) by now rewrite M.
  rewrite Q in R, N.
  eexists. exists ps. unfold get_note_list. rewrite LP, R, filter_by_tags_nil.
  split; [reflexivity|]. split; [reflexivity|]. split; [exact Len|].
  split; [|reflexivity].
  intros i d p Hd Hp. rewrite (N i d p Hd Hp). unfold with_mark.
  destruct (eq_str (page_mark d) "mark"); reflexivity.
Qed.

(** C2, as the module has it.  When the request for a page fails with an
    [IOError], the pages before it having been served, the loop ends with an
    empty mark and the status -1.  Without tags [get_note_list] returns that
    status with the notes of those pages; with tags it returns it with the
    notes the filter keeps, and raises when the filter raises. *)
Theorem get_note_list_connectivity_failure (since : pyval) (tags : list string)
    (w w1 : World) (params : dict) (pages : list dict) (e : exn) (fuel : nat) :
  list_params since w = (Ret params, w1) ->
  serves (List.length (sent w1)) pages ->
  Forall well_formed_page pages ->
  Forall (fun d => truthy (page_mark d) = true) pages ->
  (forall history req,
      List.length history = (List.length (sent w1) + List.length pages)%nat ->
      transport history req = Raise e) ->
  is_IOError e = true ->
  (List.length pages < fuel)%nat ->
  exists w2,
    mark w2 = VStr "" /\
    List.length (sent w2) = (List.length (sent w1) + List.length pages + 1)%nat /\
    get_note_list fuel since [] w =
      (Some (Ret (flat_map page_notes pages, -1)), w2) /\
    get_note_list fuel since tags w =
      (match filter_by_tags tags (flat_map page_notes pages) with
       | Ret kept => Some (Ret (kept, -1))
       | Raise x => Some (Raise x)
       end, w2).
Proof.
  intros LP S W G T E F.
  destruct (list_params_ret since w w1 params LP) as (M & _ & _).
  destruct (fetch_all_failure pages e fuel [] params 0 w1) as (w2 & R & Mk & Len);
    auto.
  { now rewrite M. }
  exists w2. unfold get_note_list. rewrite LP, R. simpl app.
  rewrite filter_by_tags_nil.
  repeat split; auto.
  destruct (filter_by_tags tags (flat_map page_notes pages)); reflexivity.
Qed.

(** *** The token *)

(** C3, as the module has it.  A cached token that is not [None] is returned
    as it is, the empty string included, and no request is made; when the
    cached value is [None], [get_token] authenticates, caches the body of the
    response and returns it, and the calls that follow return it without
    another login. *)
Theorem get_token_caching (w : World) :
  (token w <> VNone -> get_token w = (Ret (token w), w)) /\
  (token w = VNone ->
   forall r,
     transport (sent w) (login_request (username w) (password w)) = Ret r ->
     get_token w =
       (Ret (VStr (text r)),
        set_token (VStr (text r))
          (log_request (login_request (username w) (password w)) w)) /\
     get_token
       (set_token (VStr (text r))
          (log_request (login_request (username w) (password w)) w)) =
       (Ret (VStr (text r)),
        set_token (VStr (text r))
          (log_request (login_request (username w) (password w)) w))).
Proof.
  split.
  - apply get_token_cached.
  - intros N r T. split.
    + rewrite (get_token_fresh w N), T. reflexivity.
    + now rewrite get_token_cached.
Qed.

(** C4, what the module does.  The login request is made outside the [try]
    of [authenticate]: an exception of the session leaves [authenticate] as
    it is, a connectivity failure included, and every response, whatever
    its status code, gives its body as the token.  [authenticate] neither
    raises [SimplenoteLoginFailed] nor returns [None]. *)
Theorem authenticate_failures (user pass : string) (w : World) :
  (forall e,
      transport (sent w) (login_request user pass) = Raise e ->
      fst (authenticate user pass w) = Raise e) /\
  (forall r,
      transport (sent w) (login_request user pass) = Ret r ->
      fst (authenticate user pass w) = Ret (VStr (text r))).
Proof.
  rewrite authenticate_eq. split; intros x T; rewrite T; reflexivity.
Qed.

(** *** Single notes *)

(** [get_note] never returns the status -1: an exception in its [try]
    reaches [except HTTPError] first, and the unbound name raises
    [NameError]. *)
Lemma get_note_status (noteid : string) (version : option Z) (w w' : World)
    (note : pyval) (status : Z) :
  get_note noteid version w = (Ret (note, status), w') -> status = 0.
Proof.
  unfold get_note. run.
  destruct (get_auth_params w) as [[params|e] w1]; simpl; [|discriminate].
  destruct (transport _ _) as [r|e]; simpl; [|discriminate].
  destruct (json r); simpl; intros H; inversion H; reflexivity.
Qed.

Lemma append_self (s t : string) : (s ++ t)%string = s -> t = "".
Proof.
  induction s as [|c s IH]; simpl; auto. intros H. inversion H. auto.
Qed.

(** C7.  [update_note] posts a note with a key to the endpoint of the key,
    adding the current time as [modifydate] when the note has none and
    leaving the note as it is when it has one; it posts a note without a key
    to the collection endpoint, the note as it is. *)
Theorem update_note_request (note params : dict) (w w1 : World) :
  get_auth_params w = (Ret params, w1) ->
  (forall key,
      dict_get "key" note = Some key -> dict_mem "modifydate" note = false ->
      sent (snd (update_note note w)) =
      sent w1 ++
      [mkRequest POST (DATA_URL ++ "/" ++ py_str key)%string params
         (Json (dict_set "modifydate" (VFloat (clock w)) note))]) /\
  (forall key,
      dict_get "key" note = Some key -> dict_mem "modifydate" note = true ->
      sent (snd (update_note note w)) =
      sent w1 ++
      [mkRequest POST (DATA_URL ++ "/" ++ py_str key)%string params (Json note)]) /\
  (dict_get "key" note = None ->
      sent (snd (update_note note w)) =
      sent w1 ++ [mkRequest POST DATA_URL params (Json note)]).
Proof.
  intros A. unfold update_note, __decode, time_time. run.
  repeat split.
  - intros key K Md. rewrite K, Md. simpl. rewrite A. simpl.
    repeat break_match; reflexivity.
  - intros key K Md. rewrite K, Md. simpl. rewrite A. simpl.
    repeat break_match; reflexivity.
  - intros K. rewrite K. simpl. rewrite A. simpl.
    repeat break_match; reflexivity.
Qed.

(** An exception of [get_note] goes through [trash_note], and nothing is
    updated either. *)
Lemma trash_note_raises
    (self_get_note : string -> option Z -> M (pyval * Z))
    (self_update_note : dict -> M (pyval * Z))
    (note_id : string) (w w1 : World) (e : exn) :
  self_get_note note_id None w = (Raise e, w1) ->
  trash_note_via self_get_note self_update_note note_id w = (Raise e, w1).
Proof. intros G. unfold trash_note_via. run. now rewrite G. Qed.

(** C5, what the module does.  After a successful [trash_note],
    [delete_note] sends its DELETE request to [DATA_URL], the collection
    endpoint, which is not the endpoint of the note. *)
Theorem delete_note_url (self_trash_note : string -> M (pyval * Z))
    (note_id : string) (w w1 w2 : World) (note : pyval) (status : Z)
    (params : dict) :
  self_trash_note note_id w = (Ret (note, status), w1) ->
  status <> -1 ->
  get_auth_params w1 = (Ret params, w2) ->
  sent (snd (delete_note_via self_trash_note note_id w)) =
    sent w2 ++ [mkRequest DELETE DATA_URL params NoBody] /\
  DATA_URL <> (DATA_URL ++ "/" ++ note_id)%string.
Proof.
  intros T N A. split.
  - unfold delete_note_via. run. rewrite T.
    destruct (Z.eqb_spec status (-1)); [congruence|].
    rewrite A. simpl. repeat break_match; reflexivity.
  - intros H. symmetry in H. apply append_self in H. discriminate.
Qed.

(** *** get_note_list: tags and since *)

(** C6.  The filter is applied to the list the finished loop has built: with
    tags, [get_note_list] returns the records of that list that share a tag
    with the request, in their order and whatever their other fields;
    without tags it returns the list.  The requests made do not depend on
    the tags. *)
Theorem tag_filter_after_pagination (fuel : nat) (since : pyval)
    (tags : list string) (w w1 w2 : World) (params : dict)
    (note_list : list pyval) (status : Z) :
  list_params since w = (Ret params, w1) ->
  fetch_all fuel [] params 0 w1 = (Some (Ret (note_list, status)), w2) ->
  (tags <> [] -> Forall tagged note_list) ->
  get_note_list fuel since tags w =
    (Some (Ret (match tags with
                | [] => note_list
                | _ => filter (spec_shares_tag tags) note_list
                end, status)), w2) /\
  snd (get_note_list fuel since tags w) = snd (get_note_list fuel since [] w).
Proof.
  intros LP F T. split; [|apply get_note_list_world].
  unfold get_note_list. rewrite LP, F.
  destruct tags as [|t tags]; [reflexivity|].
  rewrite filter_by_tags_cons by discriminate.
  rewrite filter_tags_tagged by (apply T; discriminate). reflexivity.
Qed.

(** C10.  With tags, a record without a ["tags"] field in the list the loop
    has built makes [get_note_list] raise: [KeyError] when the records
    before it are well formed.  So a returned pair means that the test
    succeeded on every record, and when every record has its list of tags
    the call returns. *)
Theorem missing_tags_raises (fuel : nat) (since : pyval) (tags : list string)
    (w w1 w2 : World) (params : dict) (note_list : list pyval) (status : Z) :
  list_params since w = (Ret params, w1) ->
  fetch_all fuel [] params 0 w1 = (Some (Ret (note_list, status)), w2) ->
  tags <> [] ->
  (Exists lacks_tags note_list ->
   exists e, get_note_list fuel since tags w = (Some (Raise e), w2)) /\
  (forall good n rest,
      note_list = good ++ n :: rest -> Forall tagged good -> lacks_tags n ->
      get_note_list fuel since tags w = (Some (Raise (KeyError "tags")), w2)) /\
  (forall kept st w',
      get_note_list fuel since tags w = (Some (Ret (kept, st)), w') ->
      Forall (fun n => ~ lacks_tags n) note_list) /\
  (Forall tagged note_list ->
   get_note_list fuel since tags w =
     (Some (Ret (filter (spec_shares_tag tags) note_list, status)), w2)).
Proof.
  intros LP F T. unfold get_note_list. rewrite LP, F.
  rewrite filter_by_tags_cons by exact T.
  split; [|split; [|split]].
  - intros X.
    destruct (filter_tags_raises tags note_list) as [e R].
    + eapply Exists_impl; [|exact X]. intros n L.
      exists (KeyError "tags"). now apply has_tag_lacks.
    + rewrite R. eauto.
  - intros good n rest -> G L.
    now rewrite filter_tags_first_missing.
  - intros kept st w' H.
    destruct (filter_tags tags note_list) as [l|e] eqn:R; [|discriminate].
    apply filter_tags_returns in R.
    eapply Forall_impl; [|exact R].
    intros n [b Hb] L. rewrite (has_tag_lacks tags n L) in Hb. discriminate.
  - intros G. now rewrite filter_tags_tagged.
Qed.

(** The requests of a call of [get_note_list]: logins, then listing
    requests, each with the [since] parameter the setup has computed. *)
Lemma get_note_list_requests (fuel : nat) (since : pyval) (tags : list string)
    (w : World) :
  exists logins listings,
    sent (snd (get_note_list fuel since tags w)) = sent w ++ logins ++ listings /\
    Forall (fun r => req_url r = AUTH_URL) logins /\
    Forall (fun r => req_url r = INDX_URL /\
                     dict_get "since" (req_params r) =
                     match since_timestamp since with
                     | Ret ts => Some ts
                     | Raise _ => None
                     end) listings /\
    (forall params w1,
        list_params since w = (Ret params, w1) -> (0 < fuel)%nat ->
        exists rest, listings = listing_request params :: rest).
Proof.
  rewrite get_note_list_world. unfold get_note_list.
  destruct (list_params_sent since w) as (logins & SL & FL).
  destruct (list_params since w) as [[params|e] w1] eqn:LP; simpl in SL.
  2:{ exists logins, []. rewrite app_nil_r. repeat split; auto. discriminate. }
  destruct (list_params_ret since w w1 params LP) as (M & _ & Si).
  destruct (fetch_all_requests "since" ltac:(discriminate) fuel [] params 0 w1)
    as (listings & SF & FF).
  assert (S2 : sent (snd (match fetch_all fuel [] params 0 w1 with
                | (None, w2) => (None, w2)
                | (Some (Raise e), w2) => (Some (Raise e), w2)
                | (Some (Ret (note_list, status)), w2) =>
                    match filter_by_tags [] note_list with
                    | Ret l => (Some (Ret (l, status)), w2)
                    | Raise e => (Some (Raise e), w2)
                    end
                end)) = sent w ++ logins ++ listings).
  { rewrite app_assoc, <- SL, <- SF.
    destruct (fetch_all fuel [] params 0 w1) as [[[[l st]|e]|] w2]; reflexivity. }
  exists logins, listings. repeat split; auto.
  - eapply Forall_impl; [|exact FF]. intros r [U D]. split; auto. congruence.
  - intros params' w1' E F. inversion E; subst params' w1'.
    destruct fuel as [|fuel]; [lia|].
    destruct (fetch_all_first fuel [] params 0 w1) as (rest & R).
    { now rewrite M. }
    rewrite SF in R. apply app_inv_head in R. exists rest.
    rewrite R, M. reflexivity.
Qed.

(** C9.  A [since] that [strptime] parses is converted by [mktime] and sent
    as the [since] parameter of every listing request.  When [since] is
    absent or does not parse, the call is the call without [since]: same
    result, same status, same requests, and no listing request has a [since]
    parameter. *)
Theorem since_parameter (since : pyval) (tags : list string) (fuel : nat)
    (w : World) :
  (forall s d ts,
      since = VStr s -> strptime_ymd s = Some d -> mktime d = Ret ts ->
      (forall params w',
          add_since since params w' =
          (Ret (dict_set "since" (VFloat ts) params), w')) /\
      exists logins listings,
        sent (snd (get_note_list fuel since tags w)) =
          sent w ++ logins ++ listings /\
        Forall (fun r => req_url r = AUTH_URL) logins /\
        Forall (fun r => req_url r = INDX_URL /\
                         dict_get "since" (req_params r) = Some (VFloat ts))
          listings /\
        (forall params w1,
            list_params since w = (Ret params, w1) -> (0 < fuel)%nat ->
            exists rest, listings = listing_request params :: rest)) /\
  (absent_or_unparsable since ->
   (forall params w', add_since since params w' = (Ret params, w')) /\
   get_note_list fuel since tags w = get_note_list fuel VNone tags w /\
   exists logins listings,
     sent (snd (get_note_list fuel since tags w)) =
       sent w ++ logins ++ listings /\
     Forall (fun r => req_url r = AUTH_URL) logins /\
     Forall (fun r => req_url r = INDX_URL /\
                      dict_get "since" (req_params r) = None) listings /\
     (forall params w1,
         list_params since w = (Ret params, w1) -> (0 < fuel)%nat ->
         exists rest, listings = listing_request params :: rest)).
Proof.
  split.
  - intros s d ts -> P K.
    destruct (get_note_list_requests fuel (VStr s) tags w)
      as (logins & listings & S & FL & FI & N).
    simpl in FI. rewrite P, K in FI. split; [|eauto 10].
    intros params w'. rewrite add_since_eq. simpl. rewrite P, K. reflexivity.
  - intros A.
    assert (E : exists e, since_timestamp since = Raise e /\
                          is_TypeError e || is_ValueError e = true).
    { destruct since; simpl in *;
        try (exists TypeError; split; reflexivity).
      rewrite A. exists ValueError. split; reflexivity. }
    destruct E as (e & E & C). split; [|split].
    + intros params w'. rewrite add_since_eq, E, C. reflexivity.
    + unfold get_note_list. rewrite !list_params_eq.
      destruct (get_auth_params _) as [[auth|e'] w1]; auto.
      rewrite !add_since_eq, E, C. reflexivity.
    + destruct (get_note_list_requests fuel since tags w)
        as (logins & listings & S & FL & FI & N).
      rewrite E in FI. eauto 10.
Qed.

End Properties.

(** ** The statements on the reference runtime *)

Ltac serve_script rt :=
  let i := fresh "i" in
  let H := fresh "H" in
  let L := fresh "L" in
  unfold serves; intros i ? ? ? H L;
  destruct i as [|[|[|[|i]]]]; simpl in H; try discriminate H;
  inversion H; subst; unfold transport, rt, scripted_runtime, scripted;
  rewrite L; simpl; eexists; split; reflexivity.

(** C1 on the two pages [{data: [A, B], mark: "m1"}] and
    [{data: [C], mark: ""}]: the call returns [A, B, C] and makes two
    listing requests, the second with the mark ["m1"]. *)
Lemma get_note_list_pages_witness :
  exists w2,
    @get_note_list two_pages 2 VNone [] client =
      (Some (Ret ([noteA; noteB; noteC], 0)), w2) /\
    sent w2 =
      [login_request "me@example.org" "secret";
       listing_request
         [("auth", VStr "TOKEN"); ("email", VStr "me@example.org");
          ("length", VInt 100)];
       listing_request
         [("auth", VStr "TOKEN"); ("email", VStr "me@example.org");
          ("length", VInt 100); ("mark", VStr "m1")]] /\
    mark w2 = VStr "".
Proof.
  destruct (@get_note_list_pages two_pages VNone client
              (snd (@list_params two_pages VNone client))
              [("auth", VStr "TOKEN"); ("email", VStr "me@example.org");
               ("length", VInt 100)]
              [pageAB] pageC 2) as (w2 & ps & R & S & Len & N & Mk).
  - reflexivity.
  - serve_script two_pages.
  - repeat constructor; eexists; reflexivity.
  - repeat constructor.
  - reflexivity.
  - simpl. lia.
  - exists w2. split; [exact R|]. split; [|exact Mk].
    destruct ps as [|p [|p' ps]]; try discriminate Len.
    pose proof (N 0%nat pageAB _ eq_refl eq_refl) as H0.
    simpl in H0. inversion H0; subst p. exact S.
Defined.

(** The pages marked ["m1"], ["mark"] and without a mark: the request after
    the page marked ["mark"] carries ["m1"] again. *)
Example stale_mark_is_sent_again :
  fst (@get_note_list stale_pages 4 VNone [] client) =
    Some (Ret ([noteA; noteB; noteC; noteD], 0)) /\
  map (fun r => dict_get "mark" (req_params r))
    (sent (snd (@get_note_list stale_pages 4 VNone [] client))) =
  [None; None; Some (VStr "m1"); Some (VStr "m1")].
Proof. split; reflexivity. Qed.

(** C1 as stated fails on a page whose mark is the string ["mark"]: the mark
    is not empty, the loop goes on, and the second listing request is the
    first one again, without a mark. *)
Lemma sentinel_mark_is_not_forwarded :
  page_mark (page [noteA] (Some (VStr "mark"))) = VStr "mark" /\
  fst (@get_note_list sentinel_pages 3 VNone [] client) =
    Some (Ret ([noteA; noteB], 0)) /\
  nth_error (sent (snd (@get_note_list sentinel_pages 3 VNone [] client))) 2 =
    Some (listing_request
            [("auth", VStr "TOKEN"); ("email", VStr "me@example.org");
             ("length", VInt 100)]) /\
  nth_error (sent (snd (@get_note_list sentinel_pages 3 VNone [] client))) 2 <>
    Some (listing_request
            (dict_set "mark" (VStr "mark")
               [("auth", VStr "TOKEN"); ("email", VStr "me@example.org");
                ("length", VInt 100)])).
Proof.
  repeat split; try reflexivity. discriminate.
Qed.

(** C2 on a session that serves one page and then fails, without tags
    and with the tag ["x"]. *)
Lemma get_note_list_connectivity_failure_witness :
  exists w2,
    mark w2 = VStr "" /\
    List.length (sent w2) = 3%nat /\
    @get_note_list one_page_then_down 5 VNone [] client =
      (Some (Ret ([noteA; noteB], -1)), w2) /\
    @get_note_list one_page_then_down 5 VNone ["x"] client =
      (Some (Ret ([noteA], -1)), w2).
Proof.
  apply (@get_note_list_connectivity_failure one_page_then_down VNone ["x"] client
           (snd (@list_params one_page_then_down VNone client))
           [("auth", VStr "TOKEN"); ("email", VStr "me@example.org");
            ("length", VInt 100)]
           [pageAB] connection_error 5).
  - reflexivity.
  - serve_script one_page_then_down.
  - repeat constructor; eexists; reflexivity.
  - repeat constructor.
  - intros history req L. unfold transport, one_page_then_down, scripted_runtime, scripted.
    rewrite L. reflexivity.
  - reflexivity.
  - simpl. lia.
Defined.

(** C2 as stated fails with tags: the request after the page
    [[noteA; noteD]] fails with a connection error, the loop ends with an
    empty mark, and the filter raises [KeyError] on the record without tags
    instead of the call returning -1; and on the page [[noteA; noteB]] the
    value returned with -1 is the filtered list, not the notes
    accumulated. *)
Lemma filter_runs_after_connectivity_failure :
  @transport untagged_then_down
    (sent (snd (@get_note_list untagged_then_down 1 VNone ["x"] client)))
    (listing_request
       [("auth", VStr "TOKEN"); ("email", VStr "me@example.org");
        ("length", VInt 100); ("mark", VStr "m1")]) =
    Raise connection_error /\
  is_IOError connection_error = true /\
  fst (@get_note_list untagged_then_down 5 VNone ["x"] client) =
    Some (Raise (KeyError "tags")) /\
  mark (snd (@get_note_list untagged_then_down 5 VNone ["x"] client)) = VStr "" /\
  fst (@get_note_list one_page_then_down 5 VNone ["x"] client) =
    Some (Ret ([noteA], -1)) /\
  fst (@get_note_list one_page_then_down 5 VNone [] client) =
    Some (Ret ([noteA; noteB], -1)).
Proof. repeat split; reflexivity. Qed.

(** C3 as stated fails on an empty token: the login is answered with an
    empty body, the empty string is cached, and the next [get_token] returns
    it without a second login, which the session would have answered with a
    token. *)
Lemma empty_token_is_not_retried :
  token (snd (@get_token empty_login client)) = VStr "" /\
  truthy (VStr "") = false /\
  @get_token empty_login (snd (@get_token empty_login client)) =
    (Ret (VStr ""), snd (@get_token empty_login client)) /\
  sent (snd (@get_token empty_login (snd (@get_token empty_login client)))) =
    [login_request "me@example.org" "secret"] /\
  @transport empty_login
    [login_request "me@example.org" "secret"]
    (login_request "me@example.org" "secret") = ok_text 200 "TOKEN".
Proof. repeat split; reflexivity. Qed.

(** C3 on a cached token, and on a fresh instance whose login is answered
    with ["TOKEN"]. *)
Lemma get_token_caching_witness :
  @get_token offline logged_in = (Ret (VStr "TOKEN"), logged_in) /\
  @get_token two_pages client =
    (Ret (VStr "TOKEN"),
     set_token (VStr "TOKEN")
       (log_request (login_request "me@example.org" "secret") client)) /\
  @get_token two_pages
    (set_token (VStr "TOKEN")
       (log_request (login_request "me@example.org" "secret") client)) =
    (Ret (VStr "TOKEN"),
     set_token (VStr "TOKEN")
       (log_request (login_request "me@example.org" "secret") client)).
Proof.
  split.
  - apply (proj1 (@get_token_caching offline logged_in)). discriminate.
  - apply (proj2 (@get_token_caching two_pages client) eq_refl
             (mkResponse 200 "TOKEN" (Raise ValueError))).
    reflexivity.
Defined.

(** C4 without a connection and with a login refused. *)
Lemma authenticate_failures_witness :
  fst (@authenticate offline "me@example.org" "secret" client) =
    Raise connection_error /\
  fst (@authenticate refused "me@example.org" "secret" client) =
    Ret (VStr "Unauthorized").
Proof.
  split.
  - apply (proj1 (@authenticate_failures offline "me@example.org" "secret" client)).
    reflexivity.
  - apply (proj2 (@authenticate_failures refused "me@example.org" "secret" client)
             (mkResponse 401 "Unauthorized" (Raise ValueError))).
    reflexivity.
Defined.

(** C5 on the note ["k1"]: the fourth request is a DELETE of the
    collection. *)
Lemma delete_note_url_witness :
  sent (snd (@delete_note note_server "k1" client)) =
    sent (snd (@trash_note note_server "k1" client)) ++
    [mkRequest DELETE "https://app.simplenote.com/api2/data"
       [("auth", VStr "TOKEN"); ("email", VStr "me@example.org")] NoBody] /\
  DATA_URL <> "https://app.simplenote.com/api2/data/k1".
Proof.
  apply (@delete_note_url note_server (@trash_note note_server) "k1" client
           (snd (@trash_note note_server "k1" client))
           (snd (@trash_note note_server "k1" client))
           (VDict (dict_set "deleted" (VInt 1) noteK)) 0
           [("auth", VStr "TOKEN"); ("email", VStr "me@example.org")]).
  - reflexivity.
  - discriminate.
  - reflexivity.
Defined.

(** C6 on the two pages, for the tag ["y"]: the note kept is a deleted
    one. *)
Lemma tag_filter_after_pagination_witness :
  @get_note_list two_pages 2 VNone ["y"] client =
    (Some (Ret ([noteB], 0)), snd (@get_note_list two_pages 2 VNone [] client)) /\
  snd (@get_note_list two_pages 2 VNone ["y"] client) =
    snd (@get_note_list two_pages 2 VNone [] client).
Proof.
  apply (@tag_filter_after_pagination two_pages 2 VNone ["y"] client
           (snd (@list_params two_pages VNone client))
           (snd (@get_note_list two_pages 2 VNone [] client))
           [("auth", VStr "TOKEN"); ("email", VStr "me@example.org");
            ("length", VInt 100)]
           [noteA; noteB; noteC] 0).
  - reflexivity.
  - reflexivity.
  - intros _. repeat constructor; do 2 eexists; repeat split; reflexivity.
Defined.

(** The example of the specification: notes tagged [{x}], [{y}] and [{}],
    filtered on ["x"]. *)
Example filter_on_x :
  filter_by_tags ["x"] [noteA; noteB; noteC] = Ret [noteA] /\
  filter_by_tags [] [noteA; noteB; noteC] = Ret [noteA; noteB; noteC].
Proof. split; reflexivity. Qed.

(** C7 on [{key: "k1", content: "hi"}], on the same note with a
    [modifydate], and on [{content: "hi"}]. *)
Lemma update_note_request_witness :
  sent (snd (@update_note offline noteK logged_in)) =
    [mkRequest POST "https://app.simplenote.com/api2/data/k1"
       [("auth", VStr "TOKEN"); ("email", VStr "me@example.org")]
       (Json [("key", VStr "k1"); ("content", VStr "hi");
              ("modifydate", VFloat noon)])] /\
  sent (snd (@update_note offline
               [("key", VStr "k1"); ("modifydate", VInt 7)] logged_in)) =
    [mkRequest POST "https://app.simplenote.com/api2/data/k1"
       [("auth", VStr "TOKEN"); ("email", VStr "me@example.org")]
       (Json [("key", VStr "k1"); ("modifydate", VInt 7)])] /\
  sent (snd (@update_note offline [("content", VStr "hi")] logged_in)) =
    [mkRequest POST "https://app.simplenote.com/api2/data"
       [("auth", VStr "TOKEN"); ("email", VStr "me@example.org")]
       (Json [("content", VStr "hi")])].
Proof.
  split; [|split].
  - apply (proj1 (@update_note_request offline noteK
                    [("auth", VStr "TOKEN"); ("email", VStr "me@example.org")]
                    logged_in logged_in eq_refl) (VStr "k1")); reflexivity.
  - apply (proj1 (proj2 (@update_note_request offline
                    [("key", VStr "k1"); ("modifydate", VInt 7)]
                    [("auth", VStr "TOKEN"); ("email", VStr "me@example.org")]
                    logged_in logged_in eq_refl)) (VStr "k1")); reflexivity.
  - apply (proj2 (proj2 (@update_note_request offline [("content", VStr "hi")]
                    [("auth", VStr "TOKEN"); ("email", VStr "me@example.org")]
                    logged_in logged_in eq_refl))); reflexivity.
Defined.

(** On a session that fails, the module's [get_note] raises [NameError]
    and has no pair to return. *)
Example get_note_offline :
  fst (@get_note offline "k1" None logged_in) = Raise (NameError "HTTPError").
Proof. reflexivity. Qed.

(** C9 for ["2020-01-15"], midnight of that day being 1579046400, and for
    a string that is not a date. *)
Lemma since_parameter_witness :
  ((forall params w',
       @add_since two_pages (VStr "2020-01-15") params w' =
       (Ret (dict_set "since" (VFloat (float_of_Z 1579046400)) params), w')) /\
   exists logins listings,
      sent (snd (@get_note_list two_pages 2 (VStr "2020-01-15") [] client)) =
        sent client ++ logins ++ listings /\
      Forall (fun r => req_url r = AUTH_URL) logins /\
      Forall (fun r => req_url r = INDX_URL /\
                       dict_get "since" (req_params r) =
                       Some (VFloat (float_of_Z 1579046400))) listings /\
      (forall params w1,
          @list_params two_pages (VStr "2020-01-15") client = (Ret params, w1) ->
          (0 < 2)%nat ->
          exists rest, listings = listing_request params :: rest)) /\
  ((forall params w',
       @add_since two_pages (VStr "yesterday") params w' = (Ret params, w')) /\
   @get_note_list two_pages 2 (VStr "yesterday") [] client =
     @get_note_list two_pages 2 VNone [] client /\
   exists logins listings,
     sent (snd (@get_note_list two_pages 2 (VStr "yesterday") [] client)) =
       sent client ++ logins ++ listings /\
     Forall (fun r => req_url r = AUTH_URL) logins /\
     Forall (fun r => req_url r = INDX_URL /\
                      dict_get "since" (req_params r) = None) listings /\
     (forall params w1,
         @list_params two_pages (VStr "yesterday") client = (Ret params, w1) ->
         (0 < 2)%nat ->
         exists rest, listings = listing_request params :: rest)).
Proof.
  split.
  - apply (proj1 (@since_parameter two_pages (VStr "2020-01-15") [] 2 client)
             "2020-01-15" (mkDate 2020 1 15)); reflexivity.
  - apply (proj2 (@since_parameter two_pages (VStr "yesterday") [] 2 client)).
    reflexivity.
Defined.

(** The [since] parameters of the three requests of that call. *)
Example since_of_requests :
  map (fun r => dict_get "since" (req_params r))
    (sent (snd (@get_note_list two_pages 2 (VStr "2020-01-15") [] client))) =
  [None; Some (VFloat (float_of_Z 1579046400));
   Some (VFloat (float_of_Z 1579046400))].
Proof. reflexivity. Qed.

(** C10 on a page with a record that has no tags. *)
Lemma missing_tags_raises_witness :
  @get_note_list untagged_page 2 VNone ["x"] client =
    (Some (Raise (KeyError "tags")),
     snd (@get_note_list untagged_page 2 VNone [] client)) /\
  @get_note_list untagged_page 2 VNone [] client =
    (Some (Ret ([noteA; noteD], 0)),
     snd (@get_note_list untagged_page 2 VNone [] client)).
Proof.
  split; [|reflexivity].
  apply (proj1 (proj2 (@missing_tags_raises untagged_page 2 VNone ["x"] client
           (snd (@list_params untagged_page VNone client))
           (snd (@get_note_list untagged_page 2 VNone [] client))
           [("auth", VStr "TOKEN"); ("email", VStr "me@example.org");
            ("length", VInt 100)]
           [noteA; noteD] 0 eq_refl eq_refl ltac:(discriminate)))
           [noteA] noteD []).
  - reflexivity.
  - repeat constructor; do 2 eexists; repeat split; reflexivity.
  - exists [("key", VStr "d")]. split; reflexivity.
Defined.

(** ** Further properties of the module *)

Ltac split_cases :=
  repeat match goal with
  | |- context [match ?x with _ => _ end] =>
      lazymatch x with
      | context [match _ with _ => _ end] => fail
      | _ => destruct x eqn:?; simpl
      end
  end.

Section Methods.
Context {rt : Runtime}.

(** *** get_note *)

Lemma get_note_eq (noteid : string) (version : option Z) (w : World) :
  get_note noteid version w =
  match get_auth_params w with
  | (Raise _, w1) => (Raise (NameError "HTTPError"), w1)
  | (Ret params, w1) =>
      let req := mkRequest GET (note_url noteid version) params NoBody in
      match transport (sent w1) req with
      | Raise _ => (Raise (NameError "HTTPError"), log_request req w1)
      | Ret r =>
          match json r with
          | Ret note => (Ret (note, 0), log_request req w1)
          | Raise e => (Raise e, log_request req w1)
          end
      end
  end.
Proof.
  unfold get_note, note_url, __encode. run.
  destruct (get_auth_params w) as [[params|e] w1]; simpl; auto.
  destruct (transport _ _) as [r|e]; simpl; auto.
Qed.

(** X1.  When the session answers with a JSON document, [get_note] returns
    it with status 0, having sent one GET to the endpoint of the note, or of
    the version when there is one, with the auth parameters. *)
Theorem get_note_returns (noteid : string) (version : option Z)
    (w w1 : World) (params : dict) (r : Response) (note : pyval) :
  get_auth_params w = (Ret params, w1) ->
  transport (sent w1)
    (mkRequest GET
       (DATA_URL ++ "/" ++ noteid ++
        match version with Some v => "/" ++ str_int v | None => "" end)%string
       params NoBody) = Ret r ->
  json r = Ret note ->
  get_note noteid version w =
  (Ret (note, 0),
   log_request
     (mkRequest GET
        (DATA_URL ++ "/" ++ noteid ++
         match version with Some v => "/" ++ str_int v | None => "" end)%string
        params NoBody) w1).
Proof.
  intros A T J. rewrite get_note_eq, A. cbv beta iota zeta. unfold note_url.
  rewrite T, J. reflexivity.
Qed.

(** X2.  A failure inside the [try] of [get_note], of the login or of the
    GET, comes out as [NameError] for the name [HTTPError], whatever the
    exception was; [get_note] returns no status but 0. *)
Theorem get_note_failure_is_NameError (noteid : string) (version : option Z)
    (w : World) :
  (forall e w1,
      get_auth_params w = (Raise e, w1) ->
      get_note noteid version w = (Raise (NameError "HTTPError"), w1)) /\
  (forall params w1 e,
      get_auth_params w = (Ret params, w1) ->
      transport (sent w1)
        (mkRequest GET (note_url noteid version) params NoBody) = Raise e ->
      get_note noteid version w =
      (Raise (NameError "HTTPError"),
       log_request (mkRequest GET (note_url noteid version) params NoBody) w1)) /\
  (forall note status w',
      get_note noteid version w = (Ret (note, status), w') -> status = 0).
Proof.
  rewrite get_note_eq. repeat split.
  - intros e w1 A. now rewrite A.
  - intros params w1 e A T. rewrite A. cbv beta iota zeta. now rewrite T.
  - intros note status w'.
    destruct (get_auth_params w) as [[params|e] w1]; [|discriminate].
    simpl. destruct (transport _ _) as [r|e]; [|discriminate].
    destruct (json r); intros H; inversion H; reflexivity.
Qed.

(** C8, what the module does.  When the fetch fails, of the login made for
    it or of the GET, [get_note] has no pair to return: [NameError] for the
    name [HTTPError] leaves [get_note] and [trash_note], and nothing is
    updated.  [get_note] never returns the status -1, so the test of
    [trash_note] on it never holds.  When the note is fetched, [trash_note]
    is [update_note] on the note with [deleted] set to 1. *)
Theorem trash_note_fetch_failure (note_id : string) (w : World) :
  (forall e w1,
      get_auth_params w = (Raise e, w1) ->
      trash_note note_id w = (Raise (NameError "HTTPError"), w1)) /\
  (forall params w1 e,
      get_auth_params w = (Ret params, w1) ->
      transport (sent w1)
        (mkRequest GET (DATA_URL ++ "/" ++ note_id)%string params NoBody) =
        Raise e ->
      trash_note note_id w =
      (Raise (NameError "HTTPError"),
       log_request
         (mkRequest GET (DATA_URL ++ "/" ++ note_id)%string params NoBody) w1)) /\
  (forall v status w1,
      get_note note_id None w = (Ret (v, status), w1) -> status <> -1) /\
  (forall d w1,
      get_note note_id None w = (Ret (VDict d, 0), w1) ->
      trash_note note_id w = update_note (dict_set "deleted" (VInt 1) d) w1).
Proof.
  assert (U : note_url note_id None = (DATA_URL ++ "/" ++ note_id)%string).
  { unfold note_url. f_equal. f_equal. induction note_id; simpl; congruence. }
  split; [|split; [|split]].
  - intros e w1 A. apply trash_note_raises. now rewrite get_note_eq, A.
  - intros params w1 e A T. apply trash_note_raises.
    rewrite get_note_eq, A. cbv beta iota zeta. rewrite U, T. reflexivity.
  - intros v status w1 G. rewrite (get_note_status _ _ _ _ _ _ G). discriminate.
  - intros d w1 G. unfold trash_note, trash_note_via. run. now rewrite G.
Qed.

(** *** update_note and add_note *)

Lemma update_note_eq (note : dict) (w : World) :
  update_note note w =
  match get_auth_params w with
  | (Raise e, w1) =>
      if is_IOError e then (Ret (VExn e, -1), w1) else (Raise e, w1)
  | (Ret params, w1) =>
      let req := mkRequest POST (update_url note) params
                   (Json (posted_note (clock w) note)) in
      match transport (sent w1) req with
      | Raise e =>
          if is_IOError e then (Ret (VExn e, -1), log_request req w1)
          else (Raise e, log_request req w1)
      | Ret r =>
          match json r with
          | Ret n => (Ret (n, 0), log_request req w1)
          | Raise e => (Raise e, log_request req w1)
          end
      end
  end.
Proof.
  unfold update_note, update_url, posted_note, __decode, __encode, time_time,
    dict_mem. run.
  destruct (dict_get "key" note) as [key|]; simpl.
  - destruct (dict_get "modifydate" note); simpl;
      (destruct (get_auth_params w) as [[params|e] w1]; simpl;
       [ destruct (transport _ _) as [r|e]; simpl;
         [ destruct (json r); reflexivity
         | destruct (is_IOError e); reflexivity ]
       | destruct (is_IOError e); reflexivity ]).
  - destruct (get_auth_params w) as [[params|e] w1]; simpl;
      [ destruct (transport _ _) as [r|e]; simpl;
        [ destruct (json r); reflexivity
        | destruct (is_IOError e); reflexivity ]
      | destruct (is_IOError e); reflexivity ].
Qed.

(** X3.  An [IOError] of the POST, or of the login made for it, does not
    leave [update_note]: the exception is returned as the note, with the
    status -1.  Any other exception goes on. *)
Theorem update_note_soft_failure (note : dict) (w : World) :
  (forall e w1,
      get_auth_params w = (Raise e, w1) -> is_IOError e = true ->
      update_note note w = (Ret (VExn e, -1), w1)) /\
  (forall params w1 e,
      get_auth_params w = (Ret params, w1) ->
      transport (sent w1)
        (mkRequest POST (update_url note) params
           (Json (posted_note (clock w) note))) = Raise e ->
      fst (update_note note w) =
      if is_IOError e then Ret (VExn e, -1) else Raise e).
Proof.
  rewrite update_note_eq. split.
  - intros e w1 A I. now rewrite A, I.
  - intros params w1 e A T. rewrite A. cbv beta iota zeta. rewrite T.
    destruct (is_IOError e); reflexivity.
Qed.

(** X4.  The note [update_note] returns is the document the server answers
    with, not the one that was posted; when the answer is not JSON the
    exception of the decoder leaves [update_note], an [IOError] too. *)
Theorem update_note_returns_answer (note params : dict) (w w1 : World)
    (r : Response) :
  get_auth_params w = (Ret params, w1) ->
  transport (sent w1)
    (mkRequest POST (update_url note) params
       (Json (posted_note (clock w) note))) = Ret r ->
  fst (update_note note w) =
  match json r with
  | Ret answer => Ret (answer, 0)
  | Raise e => Raise e
  end.
Proof.
  intros A T. rewrite update_note_eq, A. cbv beta iota zeta. rewrite T.
  destruct (json r); reflexivity.
Qed.

(** X5.  [add_note] refuses what is neither a string nor a dict with a
    ["content"]: it returns its message with status -1 and does nothing
    else, no login and no request. *)
Theorem add_note_refuses (note : pyval) (w : World) :
  match note with
  | VStr _ => False
  | VDict d => dict_mem "content" d = false
  | _ => True
  end ->
  add_note note w = (Ret (VStr "No string or valid note.", -1), w).
Proof.
  destruct note; simpl; intros H; try reflexivity; try contradiction.
  now rewrite H.
Qed.

(** X6.  [add_note] of a string posts the document [{"content": s}], and
    nothing more, to the collection endpoint, and returns what the server
    answers. *)
Theorem add_note_string (s : string) (params : dict) (w w1 : World)
    (r : Response) (answer : pyval) :
  get_auth_params w = (Ret params, w1) ->
  transport (sent w1)
    (mkRequest POST DATA_URL params (Json [("content", VStr s)])) = Ret r ->
  json r = Ret answer ->
  add_note (VStr s) w =
  (Ret (answer, 0),
   log_request
     (mkRequest POST DATA_URL params (Json [("content", VStr s)])) w1).
Proof.
  intros A T J. unfold add_note. rewrite update_note_eq, A.
  cbv beta iota zeta. change (update_url [("content", VStr s)]) with DATA_URL.
  change (posted_note (clock w) [("content", VStr s)])
    with [("content", VStr s)].
  rewrite T, J. reflexivity.
Qed.

(** X7.  [add_note] of a dict that has a ["content"] and a ["key"] does not
    create a note: the dict is posted to the endpoint of its key, as an
    update. *)
Theorem add_note_with_key (d params : dict) (key : pyval) (w w1 : World) :
  dict_mem "content" d = true ->
  dict_get "key" d = Some key ->
  get_auth_params w = (Ret params, w1) ->
  sent (snd (add_note (VDict d) w)) =
  sent w1 ++
  [mkRequest POST (DATA_URL ++ "/" ++ py_str key)%string params
     (Json (posted_note (clock w) d))].
Proof.
  intros C K A. unfold add_note. rewrite C, update_note_eq, A.
  cbv beta iota zeta. unfold update_url. rewrite K.
  split_cases; reflexivity.
Qed.

(** *** trash_note and delete_note *)

(** X8.  A record that is not a JSON object cannot be marked as deleted:
    [trash_note] raises [TypeError] and updates nothing. *)
Theorem trash_note_needs_a_dict
    (self_get_note : string -> option Z -> M (pyval * Z))
    (self_update_note : dict -> M (pyval * Z))
    (note_id : string) (w w1 : World) (v : pyval) (status : Z) :
  self_get_note note_id None w = (Ret (v, status), w1) ->
  status <> -1 ->
  (forall d, v <> VDict d) ->
  trash_note_via self_get_note self_update_note note_id w = (Raise TypeError, w1).
Proof.
  intros G N D. unfold trash_note_via. run. rewrite G.
  destruct (Z.eqb_spec status (-1)); [congruence|].
  destruct v; try reflexivity. now destruct (D d).
Qed.

(** X9.  The POST of [trash_note] is made for the record the server
    answered with: it goes to the endpoint of the key of that record, to the
    collection endpoint when the record has no key, whatever the id asked
    for; the document has [deleted] set to 1 and the other fields of the
    record, [modifydate] apart. *)
Theorem trash_note_request (note_id : string) (w w1 w2 : World) (d params : dict) :
  get_note note_id None w = (Ret (VDict d, 0), w1) ->
  get_auth_params w1 = (Ret params, w2) ->
  exists url body,
    sent (snd (trash_note note_id w)) =
      sent w2 ++ [mkRequest POST url params (Json body)] /\
    url = match dict_get "key" d with
          | Some key => (DATA_URL ++ "/" ++ py_str key)%string
          | None => DATA_URL
          end /\
    dict_get "deleted" body = Some (VInt 1) /\
    (forall k, k <> "deleted" -> k <> "modifydate" ->
               dict_get k body = dict_get k d).
Proof.
  intros G A.
  exists (update_url (dict_set "deleted" (VInt 1) d)),
         (posted_note (clock w1) (dict_set "deleted" (VInt 1) d)).
  split; [|split; [|split]].
  - unfold trash_note, trash_note_via. run. rewrite G. simpl.
    rewrite update_note_eq, A. cbv beta iota zeta.
    split_cases; reflexivity.
  - unfold update_url. now rewrite dict_get_set_other by discriminate.
  - unfold posted_note. destruct (_ && _).
    + rewrite dict_get_set_other by discriminate. apply dict_get_set_same.
    + apply dict_get_set_same.
  - intros k Kd Km. unfold posted_note. destruct (_ && _).
    + now rewrite !dict_get_set_other by assumption.
    + now rewrite dict_get_set_other by assumption.
Qed.

Lemma delete_note_via_failure
    (self_trash_note : string -> M (pyval * Z))
    (note_id : string) (w w1 : World) (v : pyval) :
  self_trash_note note_id w = (Ret (v, -1), w1) ->
  delete_note_via self_trash_note note_id w = (Ret (v, -1), w1).
Proof. intros T. unfold delete_note_via. run. now rewrite T. Qed.

(** X10.  When the note is fetched and the POST that marks it as deleted
    fails with an [IOError], [delete_note] returns that exception with the
    status -1; the POST is the last request made, no DELETE follows. *)
Theorem delete_note_stops_on_trash_failure (note_id : string)
    (w w1 w2 : World) (d params : dict) (e : exn) :
  get_note note_id None w = (Ret (VDict d, 0), w1) ->
  get_auth_params w1 = (Ret params, w2) ->
  transport (sent w2)
    (mkRequest POST (update_url (dict_set "deleted" (VInt 1) d)) params
       (Json (posted_note (clock w1) (dict_set "deleted" (VInt 1) d)))) =
    Raise e ->
  is_IOError e = true ->
  delete_note note_id w =
  (Ret (VExn e, -1),
   log_request
     (mkRequest POST (update_url (dict_set "deleted" (VInt 1) d)) params
        (Json (posted_note (clock w1) (dict_set "deleted" (VInt 1) d)))) w2).
Proof.
  intros G A T I. apply delete_note_via_failure.
  unfold trash_note, trash_note_via. run. rewrite G. simpl.
  rewrite update_note_eq, A. cbv beta iota zeta. rewrite T, I. reflexivity.
Qed.

(** X11.  [delete_note] does not look at the answer to its DELETE: every
    response, whatever its status code and body, gives [({}, 0)]; an
    [IOError] of the request is returned with the status -1. *)
Theorem delete_note_result (self_trash_note : string -> M (pyval * Z))
    (note_id : string) (w w1 w2 : World) (note : pyval) (status : Z)
    (params : dict) :
  self_trash_note note_id w = (Ret (note, status), w1) ->
  status <> -1 ->
  get_auth_params w1 = (Ret params, w2) ->
  (forall r,
      transport (sent w2) (mkRequest DELETE DATA_URL params NoBody) = Ret r ->
      fst (delete_note_via self_trash_note note_id w) = Ret (VDict [], 0)) /\
  (forall e,
      transport (sent w2) (mkRequest DELETE DATA_URL params NoBody) = Raise e ->
      fst (delete_note_via self_trash_note note_id w) =
      if is_IOError e then Ret (VExn e, -1) else Raise e).
Proof.
  intros T N A. unfold delete_note_via. run. rewrite T.
  destruct (Z.eqb_spec status (-1)); [congruence|].
  rewrite A. simpl. split.
  - intros r R. now rewrite R.
  - intros e R. rewrite R. simpl. destruct (is_IOError e); reflexivity.
Qed.

(** *** The token *)

(** X12.  A login that raises leaves the cache empty: the exception leaves
    [get_token], the token is still [None], and the next [get_token] logs in
    again. *)
Theorem failed_login_is_retried (w : World) (e : exn) :
  token w = VNone ->
  transport (sent w) (login_request (username w) (password w)) = Raise e ->
  get_token w =
    (Raise e, log_request (login_request (username w) (password w)) w) /\
  token (log_request (login_request (username w) (password w)) w) = VNone /\
  sent (snd (get_token
               (log_request (login_request (username w) (password w)) w))) =
    sent w ++ [login_request (username w) (password w);
               login_request (username w) (password w)].
Proof.
  intros N T. split; [|split].
  - now rewrite (get_token_fresh w N), T.
  - exact N.
  - rewrite get_token_fresh by exact N.
    simpl sent at 2. clear T.
    destruct (transport _ _); simpl; rewrite <- app_assoc; reflexivity.
Qed.

(** X13.  The parameters [get_auth_params] returns are the token the
    instance holds after the call, which is not [None], and the user name;
    with a token in the cache the call changes nothing. *)
Theorem get_auth_params_returns (w w1 : World) (params : dict) :
  get_auth_params w = (Ret params, w1) ->
  params = [("auth", token w1); ("email", VStr (username w))] /\
  token w1 <> VNone /\
  username w1 = username w /\
  mark w1 = mark w /\
  (token w <> VNone -> w1 = w).
Proof.
  rewrite get_auth_params_eq.
  destruct (token w) eqn:E; simpl;
    try (intros H; inversion H; subst; rewrite E;
         repeat split; auto; discriminate).
  destruct (transport _ _) as [r|e]; [|discriminate].
  intros H; inversion H; subst. simpl.
  repeat split; auto; try discriminate. congruence.
Qed.

(** *** get_note_list: what every call does *)

(** X14.  A call of [get_note_list] starts from the first page whatever mark
    an earlier call has left in the instance. *)
Theorem get_note_list_ignores_stale_mark (fuel : nat) (since : pyval)
    (tags : list string) (m : pyval) (w : World) :
  get_note_list fuel since tags (set_mark m w) = get_note_list fuel since tags w.
Proof.
  unfold get_note_list. rewrite !list_params_eq. reflexivity.
Qed.

Lemma fetch_all_trace (fuel : nat) :
  forall (acc : list pyval) (params : dict) (st : Z) (w : World),
  exists ps,
    sent (snd (fetch_all fuel acc params st w)) =
      sent w ++ map listing_request ps /\
    Forall (fun p => forall k, k <> "mark" -> dict_get k p = dict_get k params) ps.
Proof.
  induction fuel as [|fuel IH]; intros acc params st w; simpl.
  - exists []. simpl. rewrite app_nil_r. destruct (truthy (mark w)); auto.
  - destruct (truthy (mark w)).
    2:{ exists []. simpl. rewrite app_nil_r. auto. }
    pose proof (get_notes_sent acc params w) as HS.
    destruct (__get_notes acc params w) as [[[[a p] s]|e] w'] eqn:E; simpl in HS.
    + apply get_notes_params in E. subst p.
      destruct (IH a (with_mark (mark w) params) s w') as (ps & R & F).
      exists (with_mark (mark w) params :: ps). split.
      * rewrite R, HS, <- app_assoc. reflexivity.
      * constructor.
        -- intros k N. now apply with_mark_other.
        -- eapply Forall_impl; [|exact F]. intros q H k N.
           rewrite (H k N). now apply with_mark_other.
    + exists [with_mark (mark w) params]. split; auto.
      constructor; auto. intros k N. now apply with_mark_other.
Qed.

Lemma get_auth_params_ret (w w1 : World) (params : dict) :
  get_auth_params w = (Ret params, w1) ->
  params = auth_params (token w1) (username w) /\ token w1 <> VNone.
Proof.
  rewrite get_auth_params_eq.
  destruct (token w) eqn:E; simpl;
    try (intros H; inversion H; subst; rewrite E; split; auto; discriminate).
  destruct (transport _ _) as [r|e]; [|discriminate].
  intros H; inversion H; subst. simpl. split; auto; discriminate.
Qed.

Lemma list_params_auth (since : pyval) (w w1 : World) (params : dict) :
  list_params since w = (Ret params, w1) ->
  dict_get "auth" params = Some (token w1) /\
  dict_get "email" params = Some (VStr (username w)) /\
  dict_get "length" params = Some (VInt NOTE_FETCH_LENGTH) /\
  token w1 <> VNone.
Proof.
  rewrite list_params_eq.
  destruct (get_auth_params (set_mark (VStr "mark") w)) as [[auth|e0] w0] eqn:A;
    [|discriminate].
  apply get_auth_params_ret in A. destruct A as [-> T]. simpl in T.
  rewrite add_since_eq.
  destruct (since_timestamp since) as [ts|e].
  - intros H; inversion H; subst; simpl. auto.
  - destruct (is_TypeError e || is_ValueError e); [|discriminate].
    intros H; inversion H; subst; simpl. auto.
Qed.

(** X15.  After the setup [get_note_list] only makes listing requests: GET
    requests to the index, without a body, and each with the token the
    instance holds, the user name and the page size 100. *)
Theorem listing_requests_carry_credentials (since : pyval) (tags : list string)
    (fuel : nat) (w w1 : World) (params : dict) :
  list_params since w = (Ret params, w1) ->
  exists ps,
    sent (snd (get_note_list fuel since tags w)) =
      sent w1 ++ map listing_request ps /\
    Forall (fun p => dict_get "auth" p = Some (token w1) /\
                     dict_get "email" p = Some (VStr (username w)) /\
                     dict_get "length" p = Some (VInt 100)) ps /\
    token w1 <> VNone.
Proof.
  intros LP. destruct (list_params_auth since w w1 params LP) as (A & E & L & T).
  rewrite get_note_list_world. unfold get_note_list. rewrite LP.
  destruct (fetch_all_trace fuel [] params 0 w1) as (ps & S & F).
  exists ps. repeat split; auto.
  - rewrite <- S.
    destruct (fetch_all fuel [] params 0 w1) as [[[[l st]|e]|] w2]; reflexivity.
  - eapply Forall_impl; [|exact F]. intros p H.
    rewrite !H by discriminate. auto.
Qed.

(** X16.  A login that fails inside [get_note_list] is not turned into a
    status: the exception leaves the call, before any listing request. *)
Theorem get_note_list_login_failure (fuel : nat) (since : pyval)
    (tags : list string) (w : World) (e : exn) :
  token w = VNone ->
  transport (sent w) (login_request (username w) (password w)) = Raise e ->
  exists w1,
    get_note_list fuel since tags w = (Some (Raise e), w1) /\
    sent w1 = sent w ++ [login_request (username w) (password w)].
Proof.
  intros N T. unfold get_note_list.
  rewrite list_params_eq, get_auth_params_eq. simpl. rewrite N. simpl.
  rewrite T. eexists. split; reflexivity.
Qed.

(** X17.  An exception of [mktime] that is neither a [TypeError] nor a
    [ValueError] leaves [get_note_list], after the login and before any
    listing request; a [ValueError] of [mktime] is taken for a [since] that
    does not parse. *)
Theorem mktime_errors (fuel : nat) (tags : list string) (w : World)
    (s : string) (d : datetime) (e : exn) :
  strptime_ymd s = Some d ->
  mktime d = Raise e ->
  (is_TypeError e || is_ValueError e = false ->
   forall auth w1,
     get_auth_params (set_mark (VStr "mark") w) = (Ret auth, w1) ->
     get_note_list fuel (VStr s) tags w = (Some (Raise e), w1)) /\
  (is_TypeError e || is_ValueError e = true ->
   get_note_list fuel (VStr s) tags w = get_note_list fuel VNone tags w).
Proof.
  intros P K. split.
  - intros C auth w1 A. unfold get_note_list.
    rewrite list_params_eq, A, add_since_eq. simpl. rewrite P, K, C. reflexivity.
  - intros C. unfold get_note_list. rewrite !list_params_eq.
    destruct (get_auth_params _) as [[auth|e'] w1]; auto.
    rewrite !add_since_eq. simpl. rewrite P, K, C. reflexivity.
Qed.

(** *** get_note_list: what a result tells *)

(** A round that returns has either added a page, with status 0, or met an
    [IOError], with status -1, an empty mark and the list as it was. *)
Lemma get_notes_cases (acc a : list pyval) (params p : dict) (s : Z)
    (w w1 : World) :
  __get_notes acc params w = (Ret (a, p, s), w1) ->
  sent w1 = sent w ++ [listing_request (with_mark (mark w) params)] /\
  ((s = 0 /\
    exists r d data items,
      transport (sent w) (listing_request (with_mark (mark w) params)) = Ret r /\
      json r = Ret (VDict d) /\
      dict_get "data" d = Some data /\
      iter data = Ret items /\
      a = acc ++ items) \/
   (s = -1 /\ mark w1 = VStr "" /\ a = acc)).
Proof.
  intros H. split.
  { pose proof (get_notes_sent acc params w) as S. now rewrite H in S. }
  revert H. unfold __get_notes, listing_request. run.
  destruct (transport _ _) as [r|e] eqn:T; simpl.
  - destruct (json r) as [v|e] eqn:J; simpl.
    + destruct v; simpl;
        try (intros H; inversion H; fail).
      destruct (dict_get "data" d) as [data|] eqn:D; simpl.
      2:{ intros H; inversion H. }
      destruct (iter data) as [items|e] eqn:I; simpl.
      2:{ destruct data; simpl in I; inversion I; subst; simpl;
          intros H; inversion H. }
      intros H. left.
      assert (s = 0 /\ a = acc ++ items) as [-> ->].
      { revert H. unfold dict_mem.
        destruct (dict_get "mark" d); simpl; intros H; inversion H; auto. }
      split; auto. exists r, d, data, items. repeat split; auto.
    + destruct (is_IOError e); simpl; intros H; inversion H; subst. right. auto.
  - destruct (is_IOError e); simpl; intros H; inversion H; subst. right. auto.
Qed.

Lemma fetch_all_complete (fuel : nat) :
  forall (acc l : list pyval) (params : dict) (st : Z) (w w' : World),
    fetch_all fuel acc params st w = (Some (Ret (l, 0)), w') ->
    truthy (mark w) = true ->
    exists reqs notes,
      reqs <> [] /\
      sent w' = sent w ++ reqs /\
      answered (sent w) reqs notes /\
      l = acc ++ notes.
Proof.
  induction fuel as [|fuel IH]; intros acc l params st w w' H M; simpl in H;
    rewrite M in H; [discriminate|].
  destruct (__get_notes acc params w) as [[[[a p] s]|e] w1] eqn:E;
    [|discriminate].
  destruct (get_notes_cases _ _ _ _ _ _ _ E) as (S1 & C).
  destruct (truthy (mark w1)) eqn:M1.
  - destruct C as [(-> & r & d & data & items & T & J & D & I & ->)
                  |(_ & Mk & _)].
    2:{ rewrite Mk in M1. discriminate. }
    destruct (IH _ _ _ _ _ _ H M1) as (reqs & notes & _ & S & A & ->).
    exists (listing_request (with_mark (mark w) params) :: reqs), (items ++ notes).
    repeat split.
    + discriminate.
    + rewrite S, S1, <- app_assoc. reflexivity.
    + econstructor; eauto. now rewrite <- S1.
    + now rewrite app_assoc.
  - rewrite fetch_all_stop in H by exact M1. inversion H; subst.
    destruct C as [(_ & r & d & data & items & T & J & D & I & ->)
                  |(Hs & _)]; [|discriminate].
    exists [listing_request (with_mark (mark w) params)], (items ++ []).
    repeat split.
    + discriminate.
    + exact S1.
    + econstructor; eauto. constructor.
    + now rewrite app_nil_r.
Qed.

Lemma fetch_all_returned (fuel : nat) :
  forall (acc l : list pyval) (params : dict) (st st' : Z) (w w' : World),
    fetch_all fuel acc params st w = (Some (Ret (l, st')), w') ->
    truthy (mark w') = false /\
    (truthy (mark w) = true -> st' = 0 \/ st' = -1 /\ mark w' = VStr "").
Proof.
  induction fuel as [|fuel IH]; intros acc l params st st' w w' H; simpl in H.
  - destruct (truthy (mark w)) eqn:M; [discriminate|].
    inversion H; subst. split; [exact M | discriminate].
  - destruct (truthy (mark w)) eqn:M.
    2:{ inversion H; subst. split; [exact M | discriminate]. }
    destruct (__get_notes acc params w) as [[[[a p] s]|e] w1] eqn:E;
      [|discriminate].
    destruct (IH _ _ _ _ _ _ _ H) as (F & R). split; auto. intros _.
    destruct (truthy (mark w1)) eqn:M1; auto.
    rewrite fetch_all_stop in H by exact M1. inversion H; subst.
    destruct (get_notes_cases _ _ _ _ _ _ _ E) as (_ & [(-> & _)|(-> & Mk & _)]);
      auto.
Qed.

(** X18.  When [get_note_list] returns the status 0, no request has failed
    and the list is complete: every listing request of the call, and there
    is one at least, was answered with a page, and the notes filtered are
    the notes of these pages, in order. *)
Theorem status_0_is_complete (fuel : nat) (since : pyval) (tags : list string)
    (w w1 w2 : World) (params : dict) (l : list pyval) :
  list_params since w = (Ret params, w1) ->
  get_note_list fuel since tags w = (Some (Ret (l, 0)), w2) ->
  exists reqs notes,
    reqs <> [] /\
    sent w2 = sent w1 ++ reqs /\
    answered (sent w1) reqs notes /\
    filter_by_tags tags notes = Ret l.
Proof.
  intros LP. unfold get_note_list. rewrite LP.
  destruct (list_params_ret since w w1 params LP) as (M & _ & _).
  destruct (fetch_all fuel [] params 0 w1) as [[[[nl st]|e]|] w'] eqn:F;
    try discriminate.
  destruct (filter_by_tags tags nl) as [kept|e] eqn:K; [|discriminate].
  intros H. inversion H; subst.
  destruct (fetch_all_complete fuel [] nl params 0 w1 w2 F) as
    (reqs & notes & N & S & A & ->).
  { now rewrite M. }
  exists reqs, notes. auto.
Qed.

(** X19.  When [get_note_list] returns, the mark of the instance is empty
    and the status is 0 or -1; with -1 the mark is the empty string. *)
Theorem returned_call_state (fuel : nat) (since : pyval) (tags : list string)
    (w w2 : World) (l : list pyval) (status : Z) :
  get_note_list fuel since tags w = (Some (Ret (l, status)), w2) ->
  truthy (mark w2) = false /\
  (status = 0 \/ status = -1 /\ mark w2 = VStr "").
Proof.
  unfold get_note_list.
  destruct (list_params since w) as [[params|e] w1] eqn:LP; [|discriminate].
  destruct (list_params_ret since w w1 params LP) as (M & _ & _).
  destruct (fetch_all fuel [] params 0 w1) as [[[[nl st]|e]|] w'] eqn:F;
    try discriminate.
  destruct (filter_by_tags tags nl) as [kept|e] eqn:K; [|discriminate].
  intros H. inversion H; subst.
  destruct (fetch_all_returned fuel _ _ _ _ _ _ _ F) as (Fm & R).
  split; auto. apply R. now rewrite M.
Qed.

(** *** get_note_list: sessions that do not end the loop *)

Lemma fetch_all_endless (fuel : nat) :
  forall (acc : list pyval) (params : dict) (st : Z) (w : World),
    (forall history req,
        exists r d,
          transport history req = Ret r /\ json r = Ret (VDict d) /\
          well_formed_page d /\ truthy (page_mark d) = true) ->
    truthy (mark w) = true ->
    exists w2,
      fetch_all fuel acc params st w = (None, w2) /\
      List.length (sent w2) = (List.length (sent w) + fuel)%nat.
Proof.
  induction fuel as [|fuel IH]; intros acc params st w E M; simpl; rewrite M.
  - exists w. split; auto.
  - destruct (E (sent w) (listing_request (with_mark (mark w) params)))
      as (r & d & T & J & W & G).
    rewrite (get_notes_page acc params w r d T J W).
    destruct (IH (acc ++ page_notes d) (with_mark (mark w) params) 0
                 (set_mark (page_mark d)
                    (log_request (listing_request (with_mark (mark w) params)) w))
                 E G) as (w2 & F & L).
    exists w2. split; auto. rewrite L. simpl. rewrite length_app. simpl. lia.
Qed.

(** X20.  The loop has no bound of its own: with a session that answers
    every listing request with a page that has a mark, [get_note_list] does
    not return, however many rounds it is given, and makes a request in
    every round. *)
Theorem endless_marks_never_return (since : pyval) (tags : list string)
    (w w1 : World) (params : dict) :
  (forall history req,
      exists r d,
        transport history req = Ret r /\ json r = Ret (VDict d) /\
        well_formed_page d /\ truthy (page_mark d) = true) ->
  list_params since w = (Ret params, w1) ->
  forall fuel,
  exists w2,
    get_note_list fuel since tags w = (None, w2) /\
    List.length (sent w2) = (List.length (sent w1) + fuel)%nat.
Proof.
  intros E LP fuel.
  destruct (list_params_ret since w w1 params LP) as (M & _ & _).
  destruct (fetch_all_endless fuel [] params 0 w1 E) as (w2 & F & L).
  { now rewrite M. }
  exists w2. unfold get_note_list. rewrite LP, F. auto.
Qed.

(** The loop over pages with non-empty marks, up to the request that
    follows them. *)
Lemma fetch_all_prefix (pages : list dict) :
  forall (fuel : nat) (acc : list pyval) (params : dict) (st : Z) (w : World),
    truthy (mark w) = true ->
    serves (List.length (sent w)) pages ->
    Forall well_formed_page pages ->
    Forall (fun d => truthy (page_mark d) = true) pages ->
    exists params' st' w',
      fetch_all (List.length pages + fuel) acc params st w =
        fetch_all fuel (acc ++ flat_map page_notes pages) params' st' w' /\
      truthy (mark w') = true /\
      List.length (sent w') = (List.length (sent w) + List.length pages)%nat.
Proof.
  induction pages as [|d rest IH]; intros fuel acc params st w M S W G.
  - exists params, st, w. simpl. rewrite app_nil_r. repeat split; auto.
  - inversion W; subst. inversion G; subst.
    change (List.length (d :: rest) + fuel)%nat
      with (Datatypes.S (List.length rest + fuel)).
    rewrite (fetch_all_round _ acc params st w d rest M S); auto.
    edestruct (IH fuel (acc ++ page_notes d) (with_mark (mark w) params) 0)
      as (params' & st' & w' & F & M' & L); cycle 4.
    + exists params', st', w'. rewrite F. repeat split; auto.
      * simpl. now rewrite <- app_assoc.
      * rewrite L. simpl. rewrite ?length_app. simpl. lia.
    + simpl. assumption.
    + apply serves_tail in S.
      match goal with
      | |- serves ?n _ =>
          replace n with (Datatypes.S (List.length (sent w))); [exact S|]
      end.
      simpl. rewrite length_app. simpl. lia.
    + assumption.
    + assumption.
Qed.

(** X21.  A page that is a JSON object without ["data"] makes
    [get_note_list] raise [KeyError]: the notes of the pages before it are
    not returned, and the mark of the instance is left non-empty. *)
Theorem page_without_data_raises (since : pyval) (tags : list string)
    (w w1 : World) (params : dict) (pages : list dict) (d : dict) (fuel : nat) :
  list_params since w = (Ret params, w1) ->
  serves (List.length (sent w1)) (pages ++ [d]) ->
  Forall well_formed_page pages ->
  Forall (fun p => truthy (page_mark p) = true) pages ->
  dict_get "data" d = None ->
  (List.length pages < fuel)%nat ->
  exists w2,
    get_note_list fuel since tags w = (Some (Raise (KeyError "data")), w2) /\
    truthy (mark w2) = true.
Proof.
  intros LP S W G D F.
  destruct (list_params_ret since w w1 params LP) as (M & _ & _).
  destruct (fetch_all_prefix pages (fuel - List.length pages) [] params 0 w1)
    as (params' & st' & w' & R & M' & L); auto.
  { now rewrite M. }
  { intros i p h req N Len. apply (S i p h req); auto.
    rewrite nth_error_app1; auto. apply nth_error_Some. congruence. }
  replace (List.length pages + (fuel - List.length pages))%nat with fuel in R
    by lia.
  destruct (fuel - List.length pages)%nat as [|k] eqn:K; [lia|].
  destruct (S (List.length pages) d (sent w')
              (listing_request (with_mark (mark w') params')))
    as (r & T & J).
  { rewrite nth_error_app2, Nat.sub_diag by lia. reflexivity. }
  { exact L. }
  exists (log_request (listing_request (with_mark (mark w') params')) w').
  unfold get_note_list. rewrite LP, R. simpl fetch_all. rewrite M'.
  unfold __get_notes, listing_request in *. run. rewrite T. simpl.
  rewrite J. simpl. rewrite D. simpl. split; [reflexivity | exact M'].
Qed.


(** *** The tag filter *)

Lemma existsb_ext_in (x : pyval) (tags tags' : list string) :
  (forall t, In t tags <-> In t tags') ->
  existsb (eq_str x) tags = existsb (eq_str x) tags'.
Proof.
  intros E. apply eq_true_iff_eq. rewrite !existsb_exists.
  split; intros (t & I & H); exists t; split; auto; now apply E.
Qed.

Lemma has_tag_ext (tags tags' : list string) (n : pyval) :
  (forall t, In t tags <-> In t tags') -> has_tag tags n = has_tag tags' n.
Proof.
  intros E. unfold has_tag.
  destruct (getitem n "tags"); auto. destruct (py_set a); auto.
  f_equal. induction a0 as [|x l IH]; simpl; auto.
  now rewrite (existsb_ext_in x tags tags' E), IH.
Qed.

(** X23.  The filter depends on the tags asked for as a set: their order
    and their repetitions do not change the result. *)
Theorem filter_depends_on_tag_set (tags tags' : list string) (l : list pyval) :
  (forall t, In t tags <-> In t tags') ->
  filter_by_tags tags l = filter_by_tags tags' l.
Proof.
  intros E. unfold filter_by_tags.
  assert (N : (0 <? Z.of_nat (List.length tags)) =
              (0 <? Z.of_nat (List.length tags'))).
  { destruct tags as [|t tags], tags' as [|t' tags']; auto.
    - destruct (proj2 (E t') (or_introl eq_refl)).
    - destruct (proj1 (E t) (or_introl eq_refl)). }
  rewrite <- N. destruct (0 <? Z.of_nat (List.length tags)); auto.
  induction l as [|n l IH]; simpl; auto.
  now rewrite (has_tag_ext tags tags' n E), IH.
Qed.

(** X24.  With tags, a record whose ["tags"] is [null], a boolean or a
    number, or a list that holds a list or an object, makes the filter raise
    [TypeError]. *)
Theorem malformed_tags_raise (tags : list string) (good rest : list pyval)
    (d : dict) (v : pyval) :
  tags <> [] ->
  Forall tagged good ->
  dict_get "tags" d = Some v ->
  match v with
  | VNone | VBool _ | VInt _ | VFloat _ => True
  | VList ts => forallb hashable ts = false
  | _ => False
  end ->
  filter_by_tags tags (good ++ VDict d :: rest) = Raise TypeError.
Proof.
  intros N G T V. rewrite filter_by_tags_cons by exact N.
  induction G as [|g good Tg _ IH]; simpl.
  - unfold has_tag, py_set. simpl. rewrite T.
    destruct v; simpl; try contradiction; try reflexivity.
    now rewrite V.
  - now rewrite (has_tag_tagged tags g Tg), IH.
Qed.

End Methods.

(** ** The further properties on the reference runtime *)

(** X1 on the version 3 of the note ["k1"]. *)
Lemma get_note_returns_witness :
  @get_note note_server "k1" (Some 3) client =
  (Ret (VDict noteK, 0),
   log_request
     (mkRequest GET "https://app.simplenote.com/api2/data/k1/3" credentials NoBody)
     (snd (@get_auth_params note_server client))).
Proof.
  apply (@get_note_returns note_server "k1" (Some 3) client
           (snd (@get_auth_params note_server client)) credentials
           (mkResponse 200 "" (Ret (VDict noteK))) (VDict noteK));
    reflexivity.
Defined.

(** X2 without a connection, before and after the login, and on a session
    that serves the note. *)
Lemma get_note_failure_is_NameError_witness :
  @get_note offline "k1" None client =
    (Raise (NameError "HTTPError"), snd (@get_auth_params offline client)) /\
  @get_note offline "k1" None logged_in =
    (Raise (NameError "HTTPError"),
     log_request (mkRequest GET (note_url "k1" None) credentials NoBody) logged_in) /\
  (0 : Z) = 0.
Proof.
  split; [|split].
  - apply (proj1 (@get_note_failure_is_NameError offline "k1" None client)
             connection_error). reflexivity.
  - apply (proj1 (proj2 (@get_note_failure_is_NameError offline "k1" None logged_in))
             credentials logged_in connection_error); reflexivity.
  - apply (proj2 (proj2 (@get_note_failure_is_NameError note_server "k1" None client))
             (VDict noteK) 0 (snd (@get_note note_server "k1" None client))).
    reflexivity.
Defined.

(** X3 without a connection, before and after the login. *)
Lemma update_note_soft_failure_witness :
  @update_note offline noteK client =
    (Ret (VExn connection_error, -1), snd (@get_auth_params offline client)) /\
  fst (@update_note offline noteK logged_in) = Ret (VExn connection_error, -1).
Proof.
  split.
  - apply (proj1 (@update_note_soft_failure offline noteK client)
             connection_error); reflexivity.
  - apply (proj2 (@update_note_soft_failure offline noteK logged_in)
             credentials logged_in connection_error); reflexivity.
Defined.

(** X4: a note without a key is posted, the server answers with the note
    and its key. *)
Lemma update_note_returns_answer_witness :
  fst (@update_note saving_server [("content", VStr "hi")] logged_in) =
  Ret (VDict noteK, 0).
Proof.
  apply (@update_note_returns_answer saving_server [("content", VStr "hi")]
           credentials logged_in logged_in
           (mkResponse 200 "" (Ret (VDict noteK)))); reflexivity.
Defined.

(** X5 on a dict without a content. *)
Lemma add_note_refuses_witness :
  @add_note offline (VDict [("key", VStr "k1")]) client =
  (Ret (VStr "No string or valid note.", -1), client).
Proof.
  apply (@add_note_refuses offline (VDict [("key", VStr "k1")]) client).
  reflexivity.
Defined.

(** X6 on the string ["hi"]. *)
Lemma add_note_string_witness :
  @add_note saving_server (VStr "hi") logged_in =
  (Ret (VDict noteK, 0),
   log_request
     (mkRequest POST "https://app.simplenote.com/api2/data" credentials
        (Json [("content", VStr "hi")])) logged_in).
Proof.
  apply (@add_note_string saving_server "hi" credentials logged_in logged_in
           (mkResponse 200 "" (Ret (VDict noteK))) (VDict noteK)); reflexivity.
Defined.

(** X7 on a note that has a key. *)
Lemma add_note_with_key_witness :
  sent (snd (@add_note offline (VDict noteK) logged_in)) =
  [mkRequest POST "https://app.simplenote.com/api2/data/k1" credentials
     (Json [("key", VStr "k1"); ("content", VStr "hi");
            ("modifydate", VFloat noon)])].
Proof.
  apply (@add_note_with_key offline noteK credentials (VStr "k1")
           logged_in logged_in); reflexivity.
Defined.

(** X8 on a server that answers with an array. *)
Lemma trash_note_needs_a_dict_witness :
  @trash_note array_server "k1" client =
  (Raise TypeError, snd (@get_note array_server "k1" None client)).
Proof.
  apply (@trash_note_needs_a_dict (@get_note array_server)
           (@update_note array_server) "k1" client
           (snd (@get_note array_server "k1" None client))
           (VList [VDict noteK]) 0).
  - reflexivity.
  - discriminate.
  - discriminate.
Defined.

(** X9 on a server that answers with a record without a key: the POST goes
    to the collection. *)
Lemma trash_note_request_witness :
  exists url body,
    sent (snd (@trash_note keyless_server "k1" client)) =
      sent (snd (@get_note keyless_server "k1" None client)) ++
      [mkRequest POST url credentials (Json body)] /\
    url = "https://app.simplenote.com/api2/data" /\
    dict_get "deleted" body = Some (VInt 1) /\
    (forall k, k <> "deleted" -> k <> "modifydate" ->
               dict_get k body = dict_get k [("content", VStr "hi")]).
Proof.
  apply (@trash_note_request keyless_server "k1" client
           (snd (@get_note keyless_server "k1" None client))
           (snd (@get_note keyless_server "k1" None client))
           [("content", VStr "hi")] credentials); reflexivity.
Defined.

(** X10 on a connection lost after the note was fetched: the requests are
    the login, the GET and the POST. *)
Lemma delete_note_stops_on_trash_failure_witness :
  @delete_note lost_after_fetch "k1" client =
  (Ret (VExn connection_error, -1),
   log_request
     (mkRequest POST "https://app.simplenote.com/api2/data/k1" credentials
        (Json [("key", VStr "k1"); ("content", VStr "hi"); ("deleted", VInt 1);
               ("modifydate", VFloat noon)]))
     (snd (@get_note lost_after_fetch "k1" None client))).
Proof.
  apply (@delete_note_stops_on_trash_failure lost_after_fetch "k1" client
           (snd (@get_note lost_after_fetch "k1" None client))
           (snd (@get_note lost_after_fetch "k1" None client))
           noteK credentials connection_error); reflexivity.
Defined.

(** X11 with a DELETE that is answered, and with a connection lost before
    it. *)
Lemma delete_note_result_witness :
  fst (@delete_note note_server "k1" client) = Ret (VDict [], 0) /\
  fst (@delete_note lost_before_delete "k1" client) =
    Ret (VExn connection_error, -1).
Proof.
  split.
  - apply (proj1 (@delete_note_result note_server (@trash_note note_server)
             "k1" client (snd (@trash_note note_server "k1" client))
             (snd (@trash_note note_server "k1" client))
             (VDict (dict_set "deleted" (VInt 1) noteK)) 0 credentials
             eq_refl ltac:(discriminate) eq_refl)
             (mkResponse 200 "" (Raise ValueError))).
    reflexivity.
  - apply (proj2 (@delete_note_result lost_before_delete
             (@trash_note lost_before_delete)
             "k1" client (snd (@trash_note lost_before_delete "k1" client))
             (snd (@trash_note lost_before_delete "k1" client))
             (VDict (dict_set "deleted" (VInt 1) noteK)) 0 credentials
             eq_refl ltac:(discriminate) eq_refl)
             connection_error).
    reflexivity.
Defined.

(** X12 without a connection. *)
Lemma failed_login_is_retried_witness :
  @get_token offline client =
    (Raise connection_error,
     log_request (login_request "me@example.org" "secret") client) /\
  token (log_request (login_request "me@example.org" "secret") client) = VNone /\
  sent (snd (@get_token offline
               (log_request (login_request "me@example.org" "secret") client))) =
    [login_request "me@example.org" "secret";
     login_request "me@example.org" "secret"].
Proof.
  apply (@failed_login_is_retried offline client connection_error); reflexivity.
Defined.

(** X13 on a fresh instance. *)
Lemma get_auth_params_returns_witness :
  credentials =
    [("auth", token (snd (@get_auth_params two_pages client)));
     ("email", VStr "me@example.org")] /\
  token (snd (@get_auth_params two_pages client)) <> VNone /\
  username (snd (@get_auth_params two_pages client)) = "me@example.org" /\
  mark (snd (@get_auth_params two_pages client)) = VStr "mark" /\
  (token client <> VNone -> snd (@get_auth_params two_pages client) = client).
Proof.
  apply (@get_auth_params_returns two_pages client
           (snd (@get_auth_params two_pages client)) credentials).
  reflexivity.
Defined.

(** X15 on the two pages. *)
Lemma listing_requests_carry_credentials_witness :
  exists ps,
    sent (snd (@get_note_list two_pages 2 VNone ["x"] client)) =
      [login_request "me@example.org" "secret"] ++ map listing_request ps /\
    Forall (fun p => dict_get "auth" p = Some (VStr "TOKEN") /\
                     dict_get "email" p = Some (VStr "me@example.org") /\
                     dict_get "length" p = Some (VInt 100)) ps /\
    VStr "TOKEN" <> VNone.
Proof.
  apply (@listing_requests_carry_credentials two_pages VNone ["x"] 2 client
           (snd (@list_params two_pages VNone client)) first_listing).
  reflexivity.
Defined.

(** X16 without a connection. *)
Lemma get_note_list_login_failure_witness :
  exists w1,
    @get_note_list offline 5 VNone [] client = (Some (Raise connection_error), w1) /\
    sent w1 = [login_request "me@example.org" "secret"].
Proof.
  apply (@get_note_list_login_failure offline 5 VNone [] client connection_error);
    reflexivity.
Defined.

(** X17 on a platform whose [mktime] overflows. *)
Lemma mktime_errors_witness :
  @get_note_list overflowing 5 (VStr "2020-01-15") [] client =
  (Some (Raise OverflowError),
   snd (@get_auth_params overflowing (set_mark (VStr "mark") client))).
Proof.
  apply (proj1 (@mktime_errors overflowing 5 [] client "2020-01-15"
                  (mkDate 2020 1 15) OverflowError eq_refl eq_refl) eq_refl
           credentials).
  reflexivity.
Defined.

(** X18 on the two pages. *)
Lemma status_0_is_complete_witness :
  exists reqs notes,
    reqs <> [] /\
    sent (snd (@get_note_list two_pages 2 VNone ["x"] client)) =
      [login_request "me@example.org" "secret"] ++ reqs /\
    @answered two_pages [login_request "me@example.org" "secret"] reqs notes /\
    filter_by_tags ["x"] notes = Ret [noteA].
Proof.
  apply (@status_0_is_complete two_pages 2 VNone ["x"] client
           (snd (@list_params two_pages VNone client))
           (snd (@get_note_list two_pages 2 VNone ["x"] client))
           first_listing [noteA]); reflexivity.
Defined.

(** X19 on a session that fails after a page. *)
Lemma returned_call_state_witness :
  truthy (mark (snd (@get_note_list one_page_then_down 5 VNone [] client))) = false /\
  ((-1 : Z) = 0 \/
   (-1 : Z) = -1 /\
   mark (snd (@get_note_list one_page_then_down 5 VNone [] client)) = VStr "").
Proof.
  apply (@returned_call_state one_page_then_down 5 VNone [] client
           (snd (@get_note_list one_page_then_down 5 VNone [] client))
           [noteA; noteB] (-1)).
  reflexivity.
Defined.

(** X20 on the session that always answers with the same page. *)
Lemma endless_marks_never_return_witness :
  exists w2,
    @get_note_list endless 7 VNone [] logged_in = (None, w2) /\
    List.length (sent w2) = (0 + 7)%nat.
Proof.
  refine (@endless_marks_never_return endless VNone [] logged_in
            (set_mark (VStr "mark") logged_in) first_listing _ _ 7).
  - intros history req.
    exists (mkResponse 200 "" (Ret (VDict pageAB))), pageAB.
    repeat split. eexists. reflexivity.
  - reflexivity.
Defined.

(** X21 on a page followed by an object without ["data"]. *)
Lemma page_without_data_raises_witness :
  exists w2,
    @get_note_list no_data_page 5 VNone [] client =
      (Some (Raise (KeyError "data")), w2) /\
    truthy (mark w2) = true.
Proof.
  apply (@page_without_data_raises no_data_page VNone [] client
           (snd (@list_params no_data_page VNone client)) first_listing
           [pageAB] [("count", VInt 0)] 5).
  - reflexivity.
  - serve_script no_data_page.
  - repeat constructor; eexists; reflexivity.
  - repeat constructor.
  - reflexivity.
  - simpl. lia.
Defined.


(** X23 on two lists of the tags x and y. *)
Lemma filter_depends_on_tag_set_witness :
  filter_by_tags ["x"; "y"] [noteA; noteB; noteC] =
  filter_by_tags ["y"; "x"; "x"] [noteA; noteB; noteC].
Proof.
  apply (filter_depends_on_tag_set ["x"; "y"] ["y"; "x"; "x"]).
  intros t. simpl. tauto.
Defined.

(** X24 on a record whose tags are [null]. *)
Lemma malformed_tags_raise_witness :
  filter_by_tags ["x"] [noteA; VDict [("key", VStr "n"); ("tags", VNone)]; noteB] =
  Raise TypeError.
Proof.
  apply (malformed_tags_raise ["x"] [noteA] [noteB]
           [("key", VStr "n"); ("tags", VNone)] VNone).
  - discriminate.
  - repeat constructor; do 2 eexists; repeat split; reflexivity.
  - reflexivity.
  - exact I.
Defined.

(** C8 without a connection, before and after the login, and on a session
    that serves the note. *)
Lemma trash_note_fetch_failure_witness :
  @trash_note offline "k1" client =
    (Raise (NameError "HTTPError"), snd (@get_auth_params offline client)) /\
  @trash_note offline "k1" logged_in =
    (Raise (NameError "HTTPError"),
     log_request
       (mkRequest GET "https://app.simplenote.com/api2/data/k1" credentials NoBody)
       logged_in) /\
  (0 : Z) <> -1 /\
  @trash_note note_server "k1" client =
    @update_note note_server (dict_set "deleted" (VInt 1) noteK)
      (snd (@get_note note_server "k1" None client)).
Proof.
  split; [|split; [|split]].
  - apply (proj1 (@trash_note_fetch_failure offline "k1" client)
             connection_error). reflexivity.
  - apply (proj1 (proj2 (@trash_note_fetch_failure offline "k1" logged_in))
             credentials logged_in connection_error); reflexivity.
  - apply (proj1 (proj2 (proj2 (@trash_note_fetch_failure note_server "k1" client)))
             (VDict noteK) 0 (snd (@get_note note_server "k1" None client))).
    reflexivity.
  - apply (proj2 (proj2 (proj2 (@trash_note_fetch_failure note_server "k1" client)))
             noteK (snd (@get_note note_server "k1" None client))).
    reflexivity.
Defined.
